(* ===== verification/_CoqProject ===== *)
-Q . S2P
Prelude.v
Binary64.v
Rounding.v
JSString.v
Fhir.v
Mapper.v
Chart.v
DateModel.v
Form.v
HomePage.v
