(* ===== verification/Prelude.v ===== *)
(** * A verification development for the Communicare risk-assessment page

    The repository is an Ionic/Angular front end.  Its only source file,
    [src/src/app/home/home.page.ts], declares the component [HomePage]: a
    form ([covidForm]) whose values are turned into a request by the
    repository's [PatientService] and sent by its [ApiService]; the answer,
    a FHIR-like envelope ([FHIRData]), is reshaped by the callback given to
    [map] in [getPredictionResults] into an entry of [predictionResult] and
    into the two bar-chart series [chartsData].

    ** The files, in dependency order

    - [Prelude.v] (this file): JavaScript exceptions ([js_error]: a
      [TypeError] from reading a property of [undefined]/[null], or an
      unhandled HTTP error), the result type [throws] with its [let*]
      notation, [read] (the property access [o.prop] on a possibly absent
      value), and the monad [jsM S A = S -> S * throws A] of handlers whose
      mutations survive a throw; generic lemmas on [filter], [!!] and the
      monad, the tactic [throws_inv] and the hint database [jsmodel].
    - [Binary64.v], [Module Number]: JavaScript numbers as IEEE-754
      binary64 ([SpecFloat], precision 53, [emax] 1024): [*], [Math.round]
      (floor of [x + 1/2], written with the shifts of the format),
      [Math.floor], the conversion of an integer ([of_Z]) and the exact
      rational value [fval] of a finite number.  [math_round_spec] proves
      [Math.round] equal to its ECMA-262 definition on every valid float;
      [fval_of_Z] proves integers below [2^53] exact.
    - [Rounding.v], [Module Rounding]: what [binary_round_aux] computes
      on a positive product ([binary_round_aux_pos]: the nearest multiple
      of the final step, with a 53-bit mantissa), and from it the bounds
      of the page's two products: a probability of [0, 1] times 100 and a
      [Math.random()] value times 10000, with [Math.round] and
      [Math.floor] of them.
    - [JSString.v], [Module JSString]: strings as lists of UTF-16 code
      units; [Number(s)] (ECMA-262 StringToNumber: white space, [0x]/[0o]/
      [0b], sign, [Infinity], decimal digits and exponent, rounded to
      binary64) and [ToString] of an integer (decimal digits, fuel
      [log2 |n| + 1], shown enough by [digits_fuel_enough]).  The round
      trip [to_number_of_int] underlies C14, and [to_number_not_literal]
      C15.
    - [Fhir.v], [Module Fhir]: the response envelope and the view model
      ([FHIRData], [Datum], [Prediction], [PredictionResult],
      [ChartDataSets]).  The interface files are not among the sources;
      these records hold the fields the page reads.
    - [Mapper.v], [Module Mapper]: the [map] callback of
      [getPredictionResults] (lines 133-179) as [on_values], with
      [build_result] (lines 137-163: every property read in source order,
      each able to throw) and [charts_of] (lines 166-178).  Its state is
      [Display], the pair ([predictionResult], [chartsData]).  An abstract
      contract ([Assessment], [encode], [series]) says what the callback
      promises for an envelope in the documented order; [mapper_refines]
      (C2) proves the callback implements it.
    - [Chart.v], [Module Chart]: the constant configuration of the bar
      chart (lines 76-96: [chartLabels], [chartOptions], [chartColors],
      [chartType], [chartLegend]) and [chart_wf], the coherence of the
      series with the categories and the colours.
    - [DateModel.v], [Module DateModel]: [new Date()] with its local-time
      offset and the ECMA-262 calendar functions; the fields [day],
      [month], [year] (lines 45-47) and [predictionDate] (line 55).
      [YearFromTime] uses an estimate from the 146097-day Gregorian cycle
      and one correction each way; [YearFromDay_spec] proves it exact.
    - [Form.v], [Module Form]: [covidForm] (lines 66-73), its initial
      values and Angular's [Validators.required] and [Validators.pattern].
    - [HomePage.v], [Module HomePage]: the component.  Its fields are the
      record [HomePage]; [PatientService] is a typeclass (the service is
      not among the sources) and every theorem holds for any instance.
      [Section Page] holds the world seen by the handlers ([World]: the
      component, the class list of the spinner element if it exists, the
      requests in flight), the methods [closeMessage], [toggleSpinner],
      [sendDatas], [getPredictionResults], [ngOnInit] as [jsM World]
      handlers, and the delivery of a response ([on_response], which runs
      [Mapper.on_values]) or of an HTTP failure ([on_http_error]).  The
      event loop is the relation [step] on [World] over [event]s (init,
      submit, dismiss, form edit, response or failure of any pending
      request, in any order), with [reachable], [steps] and the executable
      [run].  Runs compose ([run_app]); a run of enabled events is a
      sequence of steps ([run_steps]) and keeps a state reachable
      ([reachable_run]); [two_submits] is the common prefix of the
      scenarios with two requests in flight.

    ** What the theorems show

    - The mapper (C1-C3, C6, C7, C11, C14-C16, C22-C25, C27): the entry
      built from an envelope, on every path: success, an absent datum, no
      summary, no coding, fewer than six predictions, each throwing the
      [TypeError] JavaScript throws; the refinement of the tagged
      contract; a summary among the first six entries is also shown as a
      model's value; the percentages as binary64 rounding: for every
      finite probability of [0, 1] the percentage is an integer of
      [0, 100], every two-decimal probability is shown exactly, and of the
      three-decimal ones exactly [0.145], [0.285], [0.565] and [0.575] are
      shown one below decimal rounding (both checked over the whole finite
      range by evaluation, with the tactic [check_range]); [idPatient] as
      [Number] of the reference: the integer itself for a decimal
      reference, NaN for every ["Patient/<id>"], 0 for a blank one.
    - The component (C4, C5, C8-C10, C17-C19, C26, C28-C30, C32): the
      network side terminates without user input, the service events
      being well founded on the requests in flight (C32); the chart drawn
      is coherent in every reachable state (C29); whatever the service
      answers, delivering the answers to the requests in flight completes
      them all (liveness, C30, through the invariant
      [requests_wf_reachable]: the requests in flight have distinct
      identifiers below the next one); the result list refines the spec's
      abstract list, a fold over the events ([results_after], C28); the
      chart shows the first entry in every reachable state (C4); the
      effect of a submission with and without the spinner element, for
      whatever the form holds, valid or not; that the spinner is never
      hidden again; that two answers in flight are stored in arrival order
      and the chart shows the first to arrive; that a late answer
      repopulates a dismissed result; that a second dismissal right after
      the first can be dropped from any run; that the initial [idPatient]
      is an integer of [0, 9999] for every value [Math.random()] can
      return.
    - The date (C12, C13, C31) and the form (C20, C21): the fields are in
      range, [day] being the weekday [0..6] and not the day of the month;
      [year] is the ECMA-262 year, and [predictionDate] splits back into
      the three fields; the name pattern accepts exactly Latin-1 letters,
      hyphen, apostrophe and space; the initial [['']] of the multiple
      selects passes [required].

    ** Fuel, bounds and evaluation

    Every definition is executable.  The page has no loop and no
    recursion: every handler terminates by construction.  What can run
    forever is the interleaving of events; C32 shows that its network
    part cannot, the number of requests in flight being a measure.  The
    only fuel is that of [ToString]
    of an integer, [log2 |n| + 1] digit steps, which [digits_fuel_enough]
    shows is enough for every integer.  [YearFromTime] needs one
    correction of its estimate in either direction ([YearFromDay_spec]
    holds for every day number).  The event loop has no fuel: [run]
    recurses on the list of events, and [step]/[reachable] are inductive.
    Integer conversions are exact below [2^53] ([fval_of_Z]), which covers
    every integer the page computes.  The witnesses evaluate the model
    with [vm_compute] on concrete inputs; C22 and C23 quantify over a
    finite range and are proved by evaluating the decision on each of its
    101 or 1001 elements.

    ** What is not modelled

    The template and the styles, and the drawing of the chart by
    ng2-charts (only its inputs are modelled);
    [console.log]; the bodies of [PatientService] and [ApiService]
    (not among the sources, which hold only [home.page.ts]: an interface
    and a request/response event pair stand for them, and nothing more of
    them can be modelled from the code); [Math.random] (a parameter of
    the initial state).  Strings as UTF-16 code units do not model surrogate pairs,
    which no code of the page inspects. *)

From Stdlib Require Import ZArith.
From stdpp Require Export base list option strings.

(** ** JavaScript exceptions

    The component never catches anything; an exception raised in a callback
    aborts it.  The only exceptions its code can raise are [TypeError]s
    coming from reading a property of [undefined] or [null] (an absent
    array element, a missing DOM node). *)

Inductive nullish := JSundefined | JSnull.

Inductive js_error :=
  (** [TypeError: Cannot read properties of <base> (reading '<prop>')] *)
  | TypeError (base : nullish) (prop : string)
  (** an [HttpErrorResponse] delivered to a subscriber without error
      callback, reported as unhandled *)
  | HttpError.

(** A computation that returns a value or throws. *)
Inductive throws (A : Type) :=
  | Ok (a : A)
  | Throw (e : js_error).
Arguments Ok {A} a.
Arguments Throw {A} e.

Declare Scope js_scope.
Delimit Scope js_scope with js.

Notation "'let*' x := c 'in' k" :=
  (match c with Ok x => k | Throw e => Throw e end)
  (at level 100, x name, c at level 99, k at level 200) : js_scope.

(** Reading a property of a possibly absent value: [o.prop] where [o] is
    [undefined] throws. *)
Definition read {A B} (prop : string) (o : option A) (f : A -> B) : throws B :=
  match o with
  | Some a => Ok (f a)
  | None => Throw (TypeError JSundefined prop)
  end.

Definition is_ok {A} (t : throws A) : bool :=
  match t with Ok _ => true | Throw _ => false end.

Create HintDb jsmodel.
Create Rewrite HintDb jsmodel.


(** ** Handlers: state that survives exceptions

    A handler of the component mutates objects in place; when it throws,
    the mutations made before the throw remain.  [jsM S A] threads the
    state [S] and returns the value or the exception together with the
    state reached.  It is a monad in stdpp's sense, so handlers are written
    with [x ← m; k] and [m ;; k]. *)
Definition jsM (S A : Type) : Type := S -> S * throws A.

#[export] Instance jsM_ret {S} : MRet (jsM S) := fun A a s => (s, Ok a).
#[export] Instance jsM_bind {S} : MBind (jsM S) :=
  fun A B k m s => match m s with
                   | (s', Ok a) => k a s'
                   | (s', Throw e) => (s', Throw e)
                   end.

Definition js_raise {S A} (e : js_error) : jsM S A := fun s => (s, Throw e).
Definition js_gets {S A} (f : S -> A) : jsM S A := fun s => (s, Ok (f s)).
Definition js_modify {S} (f : S -> S) : jsM S unit := fun s => (f s, Ok tt).

Lemma jsM_bind_ok {S A B} (m : jsM S A) (k : A -> jsM S B) s s' a :
  m s = (s', Ok a) -> (m ≫= k) s = k a s'.
Proof. intros H. unfold mbind, jsM_bind. rewrite H. reflexivity. Qed.

Lemma jsM_bind_throw {S A B} (m : jsM S A) (k : A -> jsM S B) s s' e :
  m s = (s', Throw e) -> (m ≫= k) s = (s', Throw e).
Proof. intros H. unfold mbind, jsM_bind. rewrite H. reflexivity. Qed.

(** ** Generic lemmas on the shapes the model uses *)

Lemma read_Some {A B} prop (a : A) (f : A -> B) :
  read prop (Some a) f = Ok (f a).
Proof. reflexivity. Qed.

Lemma read_None {A B} prop (f : A -> B) :
  read prop None f = Throw (TypeError JSundefined prop).
Proof. reflexivity. Qed.


(** JavaScript's [a[i]] on an array is stdpp's [a !! i]: [undefined] when
    [i] is out of range. *)
Lemma lookup_lt_Some_iff {A} (l : list A) i :
  is_Some (l !! i) <-> i < length l.
Proof. split; [apply lookup_lt_is_Some_1 | apply lookup_lt_is_Some_2]. Qed.

(** A decidable property of every integer of a range, checked by
    evaluating its decision over [seqZ]. *)
Lemma forall_seqZ_decide (P : Z -> Prop) `{!forall k, Decision (P k)} (lo n k : Z) :
  forallb (fun k => bool_decide (P k)) (seqZ lo n) = true -> (lo <= k < lo + n)%Z -> P k.
Proof.
  intros Hall Hk. apply forallb_forall with (x := k) in Hall.
  - exact (bool_decide_eq_true_1 _ Hall).
  - apply list_elem_of_In, elem_of_seqZ. exact Hk.
Qed.

(** What holds of every element of a list holds of every sublist. *)
Lemma Forall_sublist {A} (P : A -> Prop) (l1 l2 : list A) :
  l1 `sublist_of` l2 -> Forall P l2 -> Forall P l1.
Proof. induction 1; inversion 1; subst; auto. Qed.

(** The first element of a filtered list. *)
Lemma head_filter_None {A} (P : A -> Prop) `{!forall x, Decision (P x)} (l : list A) :
  head (filter P l) = None <-> Forall (fun x => ~ P x) l.
Proof.
  induction l as [|x l IH]; simpl; [split; auto|].
  rewrite filter_cons. case_decide; simpl.
  - split; [discriminate | intros HF; inversion HF; contradiction].
  - rewrite IH. split; [intros; constructor; auto | intros HF; inversion HF; auto].
Qed.

Lemma head_filter_Some {A} (P : A -> Prop) `{!forall x, Decision (P x)} (l : list A) x :
  head (filter P l) = Some x -> P x /\ x ∈ l.
Proof.
  induction l as [|y l IH]; simpl; [discriminate|].
  rewrite filter_cons. case_decide; simpl.
  - intros [= ->]. split; [done | left].
  - intros H'. destruct (IH H'). split; [done | by right].
Qed.

(** Property reads on present and absent values, and the bound that makes
    an index present. *)
#[export] Hint Rewrite @read_Some @read_None @jsM_bind_ok @jsM_bind_throw : jsmodel.
#[export] Hint Resolve lookup_lt_is_Some_2 head_filter_Some : jsmodel.

(** Prove [P k] for [k] in the range [lo, lo + n) by evaluating the
    decision of [P] on each element of the range. *)
Ltac check_range k lo n :=
  pattern k; match goal with
             | |- ?P k => apply (forall_seqZ_decide P lo n k); [vm_compute; reflexivity | lia]
             end.

(** Case analysis on the results of [throws] computations in hypotheses. *)
Ltac throws_inv :=
  repeat match goal with
  | H : Ok _ = Ok _ |- _ => injection H as H; subst
  | H : Ok _ = Throw _ |- _ => discriminate H
  | H : Throw _ = Ok _ |- _ => discriminate H
  | H : Throw _ = Throw _ |- _ => injection H as H; subst
  end.
