(* ===== verification/Binary64.v ===== *)
(** * JavaScript numbers as IEEE 754 binary64

    Every JavaScript [number] is a binary64 value.  The Stdlib's
    [SpecFloat] describes those values ([spec_float]: signed zeros,
    infinities, NaN and finite [m * 2^e]) and the correctly rounded
    operations on them, executably.  This file fixes the binary64 format,
    defines the conversion of an integer to a number, [Math.round] and
    [Math.floor] as ECMAScript specifies them, and the exact rational value
    of a finite number, and proves what [Math.round] computes. *)

From Stdlib Require Import ZArith QArith Qround Lia.
From Stdlib Require Import Floats.SpecFloat.
From S2P Require Import Prelude.

Local Open Scope Z_scope.

Module Number.

Definition prec : Z := 53.
Definition emax : Z := 1024.

Abbreviation t := spec_float.

(** The arithmetic of the language: round to nearest, ties to even. *)
Definition mul : t -> t -> t := SFmul prec emax.
Definition div : t -> t -> t := SFdiv prec emax.
Definition add : t -> t -> t := SFadd prec emax.

Definition valid (x : t) : bool := valid_binary prec emax x.

(** The number nearest to an integer (exact below [2^53]). *)
Definition of_Z (z : Z) : t := binary_normalize prec emax z 0 false.

Definition is_finite (x : t) : bool :=
  match x with
  | S754_zero _ | S754_finite _ _ _ => true
  | _ => false
  end.

Definition is_nan (x : t) : bool :=
  match x with S754_nan => true | _ => false end.

(** Structural equality of numbers: it tells [+0] from [-0] and equates
    NaN with itself, unlike [===]; it is the identity of values a getter
    of the page can observe. *)
#[global] Instance eq_dec : EqDecision t.
Proof. solve_decision. Defined.

(** The exact value of a finite number. *)
Definition fval (x : t) : Q :=
  match x with
  | S754_finite s m e =>
      match e with
      | Zneg k => Qmake (cond_Zopp s (Zpos m)) (Pos.pow 2 k)
      | _ => inject_Z (cond_Zopp s (Zpos m) * 2 ^ e)
      end
  | _ => 0%Q
  end.

(** [Math.round] (ECMA-262, 21.3.2.28): the integral number closest to
    [x], the one nearer to +∞ on a tie; [+0] on (0, 0.5), [-0] on
    [-0.5, -0); NaN, infinities and zeros are returned unchanged.  On a
    finite [x = v * 2^-k] with [k > 0] the closest integer, ties upward,
    is [floor (x + 1/2) = (v + 2^(k-1)) >> k]. *)
Definition math_round (x : t) : t :=
  match x with
  | S754_finite s m e =>
      if Z.leb 0 e then x
      else
        let r := Z.shiftr (cond_Zopp s (Zpos m) + Z.shiftl 1 (- e - 1)) (- e) in
        if Z.eqb r 0 then S754_zero s else of_Z r
  | _ => x
  end.

(** [Math.floor] (ECMA-262, 21.3.2.16): the greatest integral number not
    above [x]; [+0] on (0, 1). *)
Definition math_floor (x : t) : t :=
  match x with
  | S754_finite s m e =>
      if Z.leb 0 e then x
      else
        let r := Z.shiftr (cond_Zopp s (Zpos m)) (- e) in
        if Z.eqb r 0 then S754_zero s else of_Z r
  | _ => x
  end.

(** ** The exact conversion of small integers

    Below [2^53] an integer's mantissa is shifted to 53 bits and
    [binary_round] does not round. *)

Lemma digits2_pos_iter_xO (p : positive) (k : positive) :
  Zpos (digits2_pos (Pos.iter xO p k)) = Zpos (digits2_pos p) + Zpos k.
Proof.
  induction k as [|k IH] using Pos.peano_ind; [simpl; rewrite Pos2Z.inj_succ; lia|].
  rewrite Pos.iter_succ. cbn [digits2_pos].
  rewrite Pos2Z.inj_succ, IH, Pos2Z.inj_succ. lia.
Qed.

Lemma iter_xO_value (p k : positive) :
  Zpos (Pos.iter xO p k) = Zpos p * 2 ^ Zpos k.
Proof.
  induction k as [|k IH] using Pos.peano_ind; [simpl; lia|].
  rewrite Pos.iter_succ, Pos2Z.inj_xO, IH, Pos2Z.inj_succ, Z.pow_succ_r by lia.
  lia.
Qed.

Lemma pow2_pred (d : Z) : 1 <= d -> 2 ^ d = 2 * 2 ^ (d - 1).
Proof. intros H. rewrite <- Z.pow_succ_r by lia. f_equal. lia. Qed.

Lemma digits2_pos_bound (p : positive) :
  2 ^ (Zpos (digits2_pos p) - 1) <= Zpos p < 2 ^ Zpos (digits2_pos p).
Proof.
  induction p as [p IH|p IH|].
  1,2: change (digits2_pos _) with (Pos.succ (digits2_pos p));
    rewrite Pos2Z.inj_succ, Z.pow_succ_r by lia;
    replace (Z.succ (Zpos (digits2_pos p)) - 1) with (Zpos (digits2_pos p)) by lia;
    rewrite (pow2_pred (Zpos (digits2_pos p))) in * by lia.
  - rewrite (Pos2Z.inj_xI p). lia.
  - rewrite (Pos2Z.inj_xO p). lia.
  - change (digits2_pos 1) with 1%positive. simpl. lia.
Qed.

Lemma digits2_pos_le (p : positive) (d : Z) :
  Zpos p < 2 ^ d -> Zpos (digits2_pos p) <= d.
Proof.
  intros H. pose proof (digits2_pos_bound p) as [Hlo _].
  destruct (Z.le_gt_cases (Zpos (digits2_pos p)) d) as [|Hgt]; [lia|].
  assert (2 ^ d <= 2 ^ (Zpos (digits2_pos p) - 1)) by (apply Z.pow_le_mono_r; lia).
  lia.
Qed.

Lemma shl_align_small (p : positive) :
  Zpos p < 2 ^ 53 ->
  let '(mz, ez) := shl_align p 0 (fexp prec emax (Zpos (digits2_pos p) + 0)) in
  Zpos (digits2_pos mz) = 53 /\ ez = Zpos (digits2_pos p) - 53 /\
  Zpos mz = Zpos p * 2 ^ (- ez).
Proof.
  intros H. pose proof (digits2_pos_le p 53 H) as Hd.
  unfold fexp, emin, prec, emax.
  replace (Z.max (Zpos (digits2_pos p) + 0 - 53) (3 - 1024 - 53)) with (Zpos (digits2_pos p) - 53) by lia.
  unfold shl_align. rewrite Z.sub_0_r.
  destruct (Zpos (digits2_pos p) - 53) as [|k|k] eqn:E.
  - repeat split; lia.
  - lia.
  - rewrite digits2_pos_iter_xO, iter_xO_value. repeat split; lia.
Qed.

Lemma binary_round_exact (s : bool) (p : positive) :
  Zpos p < 2 ^ 53 ->
  exists m, binary_round prec emax s p 0 = S754_finite s m (Zpos (digits2_pos p) - 53) /\
    Zpos (digits2_pos m) = 53 /\ Zpos m = Zpos p * 2 ^ (53 - Zpos (digits2_pos p)).
Proof.
  intros H. pose proof (shl_align_small p H) as Hs. pose proof (digits2_pos_le p 53 H).
  unfold binary_round.
  destruct (shl_align p 0 _) as [mz ez]. destruct Hs as (Hdm & -> & Hv).
  exists mz. split; [|split; [auto| rewrite Hv; f_equal; f_equal; lia]].
  assert (Hf : fexp prec emax (Zpos (digits2_pos mz) + (Zpos (digits2_pos p) - 53))
               - (Zpos (digits2_pos p) - 53) = 0).
  { rewrite Hdm. unfold fexp, emin, prec, emax. lia. }
  unfold binary_round_aux, shr_fexp.
  change (Zdigits2 (Zpos mz)) with (Zpos (digits2_pos mz)). rewrite Hf.
  cbv beta iota zeta delta [shr shr_record_of_loc loc_of_shr_record round_nearest_even shr_m].
  change (Zdigits2 (Zpos mz)) with (Zpos (digits2_pos mz)). rewrite Hf.
  cbv beta iota zeta delta [shr shr_record_of_loc loc_of_shr_record round_nearest_even shr_m].
  replace (Zpos (digits2_pos p) - 53 <=? emax - prec) with true by (unfold emax, prec; lia).
  reflexivity.
Qed.

Lemma fval_finite_exact (s : bool) (m p : positive) (e : Z) :
  e <= 0 -> Zpos m = Zpos p * 2 ^ (- e) ->
  fval (S754_finite s m e) == inject_Z (cond_Zopp s (Zpos p)).
Proof.
  intros He Hm. unfold fval, Qeq, inject_Z. simpl Qnum; simpl Qden.
  destruct e as [|k|k]; try lia.
  - simpl in Hm. rewrite Hm. destruct s; simpl; lia.
  - simpl Qnum. simpl Qden. rewrite Pos2Z.inj_pow. change (- Zneg k) with (Zpos k) in Hm. rewrite Hm.
    destruct s; unfold cond_Zopp; ring.
Qed.

(** ** Value lemmas *)

Lemma fval_of_Z (z : Z) : Z.abs z < 2 ^ 53 -> fval (of_Z z) == inject_Z z.
Proof.
  intros Hz. unfold of_Z, binary_normalize. destruct z as [|p|p].
  - reflexivity.
  - destruct (binary_round_exact false p) as (m & -> & _ & Hm); [lia|].
    apply (fval_finite_exact false); [pose proof (digits2_pos_le p 53); lia|].
    rewrite Hm. f_equal. f_equal. lia.
  - destruct (binary_round_exact true p) as (m & -> & _ & Hm); [lia|].
    apply (fval_finite_exact true); [pose proof (digits2_pos_le p 53); lia|].
    rewrite Hm. f_equal. f_equal. lia.
Qed.

(** A valid finite number has a mantissa below [2^53]. *)
Lemma valid_mantissa s m e :
  valid_binary prec emax (S754_finite s m e) = true -> Zpos m < 2 ^ 53.
Proof.
  unfold valid_binary, bounded, canonical_mantissa. intros H.
  apply andb_prop in H as [H _]. apply Z.eqb_eq in H.
  unfold fexp, emin, prec, emax in H.
  pose proof (digits2_pos_bound m) as [_ Hlt].
  assert (Zpos (digits2_pos m) <= 53) by lia.
  eapply Z.lt_le_trans; [exact Hlt|]. apply Z.pow_le_mono_r; lia.
Qed.

Lemma Qfloor_int_half (n : Z) : Qfloor (inject_Z n + (1 # 2)) = n.
Proof. unfold Qfloor, Qplus, inject_Z. simpl. Z.div_mod_to_equations. lia. Qed.

Lemma cond_Zopp_abs s (m : positive) : Z.abs (cond_Zopp s (Zpos m)) = Zpos m.
Proof. destruct s; reflexivity. Qed.

Lemma round_half_shift (v : Z) (k : positive) :
  Z.shiftr (v + Z.shiftl 1 (Zpos k - 1)) (Zpos k) =
  Qfloor (Qmake v (Pos.pow 2 k) + (1 # 2)).
Proof.
  unfold Qfloor, Qplus. simpl Qnum; simpl Qden.
  rewrite Z.shiftr_div_pow2, Z.shiftl_mul_pow2 by lia.
  rewrite Pos2Z.inj_mul, Pos2Z.inj_pow.
  rewrite (pow2_pred (Zpos k)) by lia.
  assert (HB : 0 < 2 ^ (Zpos k - 1)) by (apply Z.pow_pos_nonneg; lia).
  set (B := 2 ^ (Zpos k - 1)) in *.
  replace (v * 2 + 1 * (2 * B)) with ((v + 1 * B) * 2) by ring.
  rewrite Z.div_mul_cancel_r by lia. reflexivity.
Qed.

Lemma round_half_bound (v : Z) (k : positive) :
  Z.abs v < 2 ^ 53 ->
  Z.abs (Z.shiftr (v + Z.shiftl 1 (Zpos k - 1)) (Zpos k)) < 2 ^ 53.
Proof.
  intros Hv.
  rewrite Z.shiftr_div_pow2, Z.shiftl_mul_pow2 by lia.
  rewrite (pow2_pred (Zpos k)) by lia.
  assert (HB : 0 < 2 ^ (Zpos k - 1)) by (apply Z.pow_pos_nonneg; lia).
  set (B := 2 ^ (Zpos k - 1)) in *.
  set (P := 2 ^ 53) in *.
  assert (Hlo := Z.mul_div_le (v + 1 * B) (2 * B) ltac:(lia)).
  assert (Hhi := Z.mul_succ_div_gt (v + 1 * B) (2 * B) ltac:(lia)).
  set (r := (v + 1 * B) / (2 * B)) in *.
  nia.
Qed.

(** An integer below [2^53] converts to a finite number. *)
Lemma of_Z_finite (z : Z) : Z.abs z < 2 ^ 53 -> is_finite (of_Z z) = true.
Proof.
  intros Hz. unfold of_Z, binary_normalize. destruct z as [|p|p]; [reflexivity| |].
  - destruct (binary_round_exact false p) as (m & -> & _); [lia | reflexivity].
  - destruct (binary_round_exact true p) as (m & -> & _); [lia | reflexivity].
Qed.

(** ** What [Math.round] computes

    On every number whose mantissa fits in 53 bits, in particular on every
    valid number, the result is [floor (x + 1/2)]: the nearest integer,
    ties toward +∞.  (NaN and the infinities have value 0 in [fval] and are
    returned unchanged.) *)
Lemma math_round_finite (s : bool) (m : positive) (e : Z) :
  Zpos m < 2 ^ 53 ->
  fval (math_round (S754_finite s m e)) ==
    inject_Z (Qfloor (fval (S754_finite s m e) + (1 # 2))).
Proof.
  intros Hm. unfold math_round. destruct e as [|e|k].
  - simpl fval. rewrite Qfloor_int_half. reflexivity.
  - simpl (Z.leb 0 (Zpos e)). cbv iota. unfold fval. rewrite Qfloor_int_half. reflexivity.
  - simpl (Z.leb 0 (Zneg k)). cbv iota zeta.
    change (- Zneg k) with (Zpos k).
    change (fval (S754_finite s m (Zneg k))) with (Qmake (cond_Zopp s (Zpos m)) (Pos.pow 2 k)).
    rewrite round_half_shift.
    destruct (Z.eqb_spec (Qfloor (Qmake (cond_Zopp s (Zpos m)) (Pos.pow 2 k) + (1 # 2))) 0) as [E|E].
    + rewrite E. reflexivity.
    + apply fval_of_Z.
      rewrite <- round_half_shift. apply round_half_bound.
      rewrite cond_Zopp_abs. exact Hm.
Qed.

Lemma math_round_spec (x : spec_float) :
  valid_binary prec emax x = true ->
  fval (math_round x) == inject_Z (Qfloor (fval x + (1 # 2))).
Proof.
  destruct x as [s|s| |s m e]; intros Hv; try reflexivity.
  exact (math_round_finite s m e (valid_mantissa _ _ _ Hv)).
Qed.

Lemma math_round_is_finite (s : bool) (m : positive) (e : Z) :
  Zpos m < 2 ^ 53 -> is_finite (math_round (S754_finite s m e)) = true.
Proof.
  intros Hm. unfold math_round. destruct (Z.leb_spec 0 e); [reflexivity|].
  destruct e as [|e|k]; [lia|lia|]. cbv zeta. change (- Zneg k) with (Zpos k).
  match goal with |- context [Z.eqb ?r 0] => destruct (Z.eqb_spec r 0) end; [reflexivity|].
  apply of_Z_finite, round_half_bound. rewrite cond_Zopp_abs. exact Hm.
Qed.

(** [Math.floor] of a number whose mantissa fits in 53 bits is the floor
    of its value. *)
Lemma math_floor_finite (s : bool) (m : positive) (e : Z) :
  Zpos m < 2 ^ 53 ->
  fval (math_floor (S754_finite s m e)) == inject_Z (Qfloor (fval (S754_finite s m e))).
Proof.
  intros Hm. unfold math_floor. destruct e as [|e|k].
  - simpl fval. rewrite Qfloor_Z. reflexivity.
  - simpl (Z.leb 0 (Zpos e)). cbv iota. unfold fval. rewrite Qfloor_Z. reflexivity.
  - simpl (Z.leb 0 (Zneg k)). cbv iota zeta. change (- Zneg k) with (Zpos k).
    change (fval (S754_finite s m (Zneg k))) with (Qmake (cond_Zopp s (Zpos m)) (Pos.pow 2 k)).
    assert (Hq : Qfloor (Qmake (cond_Zopp s (Zpos m)) (Pos.pow 2 k)) =
                 Z.shiftr (cond_Zopp s (Zpos m)) (Zpos k)).
    { unfold Qfloor. rewrite Z.shiftr_div_pow2 by lia. simpl. rewrite Pos2Z.inj_pow. reflexivity. }
    rewrite Hq. destruct (Z.eqb_spec (Z.shiftr (cond_Zopp s (Zpos m)) (Zpos k)) 0) as [E|E].
    + rewrite E. reflexivity.
    + apply fval_of_Z. rewrite Z.shiftr_div_pow2 by lia.
      assert (0 < 2 ^ Zpos k) by (apply Z.pow_pos_nonneg; lia).
      pose proof (cond_Zopp_abs s m).
      destruct s; simpl in *; Z.div_mod_to_equations; nia.
Qed.

Lemma math_floor_is_finite (s : bool) (m : positive) (e : Z) :
  Zpos m < 2 ^ 53 -> is_finite (math_floor (S754_finite s m e)) = true.
Proof.
  intros Hm. unfold math_floor. destruct (Z.leb_spec 0 e); [reflexivity|].
  cbv zeta.
  match goal with |- context [Z.eqb ?r 0] => destruct (Z.eqb_spec r 0) end; [reflexivity|].
  apply of_Z_finite. rewrite Z.shiftr_div_pow2 by lia.
  assert (0 < 2 ^ (- e)) by (apply Z.pow_pos_nonneg; lia).
  pose proof (cond_Zopp_abs s m). destruct s; simpl in *; Z.div_mod_to_equations; nia.
Qed.

(** Rounding does not depend on the sign: the sign is only copied into the
    result. *)
Lemma binary_round_aux_opp (m e : Z) (l : location) :
  binary_round_aux prec emax true m e l = SFopp (binary_round_aux prec emax false m e l).
Proof.
  unfold binary_round_aux.
  destruct (shr_fexp prec emax m e l) as [mrs' e'].
  destruct (shr_fexp prec emax _ e' loc_Exact) as [mrs'' e''].
  destruct (shr_m mrs''); [reflexivity| |reflexivity].
  destruct (e'' <=? emax - prec); reflexivity.
Qed.

Lemma of_Z_neg (p : positive) : of_Z (Zneg p) = SFopp (of_Z (Zpos p)).
Proof.
  unfold of_Z, binary_normalize, binary_round.
  destruct (shl_align p 0 _). apply binary_round_aux_opp.
Qed.

End Number.
