(* ===== verification/Rounding.v ===== *)
(** * Rounding of products of binary64 numbers

    [Number.mul] is [SFmul], which rounds the exact product [mx * 2^ex] of
    two positive numbers with [binary_round_aux]: it shifts the mantissa
    right to the exponent of the format at that magnitude, remembering the
    half bit and the sticky bit ([shr_1], [shr_fexp]), rounds to nearest
    even ([round_nearest_even]), renormalises on a carry and checks for
    overflow.  [binary_round_aux_pos] states what it computes: a multiple
    of the final step within half a step of the product, with a mantissa
    below [2^53].  From it follow the bounds the page relies on: a
    probability in [0, 1] times 100 lies in [0, 100] ([mul_percent]), a
    number of [0, 1) times 10000 lies in [0, 10000) ([mul_random]), and
    [Math.round] and [Math.floor] of such products are integers of the
    same ranges. *)

From Stdlib Require Import ZArith QArith Qround Lia.
From Stdlib Require Import Floats.SpecFloat.
From S2P Require Import Prelude Binary64.

Local Open Scope Z_scope.

Module Rounding.
Import Number.

Lemma iter_pos_iter {A} (f : A -> A) (p : positive) (x : A) :
  SpecFloat.iter_pos f p x = Pos.iter f x p.
Proof.
  revert x. induction p as [p IH|p IH|]; intros x; simpl.
  - rewrite !IH, !Pos.iter_swap. reflexivity.
  - rewrite !IH. reflexivity.
  - reflexivity.
Qed.

(** After [n] right shifts of [M] the record holds [M / 2^n], the half bit
    and whether any lower bit was set: with [P = 2^(n-1)],
    [M = m * 2P + (r ? P : 0) + t] where [0 <= t < P] and [s] tells
    [t <> 0]. *)
Definition shr_inv (M : Z) (P : Z) (mrs : shr_record) : Prop :=
  exists t, M = shr_m mrs * (2 * P) + (if shr_r mrs then P else 0) + t /\
            0 <= t < P /\ (shr_s mrs = true <-> t <> 0) /\ 0 <= shr_m mrs.

Lemma shr_1_inv (M P : Z) (mrs : shr_record) :
  0 < P -> shr_inv M P mrs -> shr_inv M (2 * P) (shr_1 mrs).
Proof.
  intros HP (t & HM & Ht & Hs & Hm).
  destruct mrs as [m r s]; simpl in *.
  assert (Hcase : forall q b, m = 2 * q + b -> 0 <= b <= 1 -> 0 <= q ->
     shr_inv M (2 * P) {| shr_m := q; shr_r := Z.eqb b 1; shr_s := r || s |}).
  { intros q b Hq Hb Hq0. exists ((if r then P else 0) + t). simpl.
    split; [destruct (Z.eqb_spec b 1), r; nia|].
    split; [destruct r; lia|]. split; [|lia].
    rewrite orb_true_iff, Hs. destruct r; split; intros; try lia; auto. }
  destruct m as [|[q|q|]|q]; simpl; try lia.
  - exact (Hcase 0 0 eq_refl ltac:(lia) ltac:(lia)).
  - exact (Hcase (Zpos q) 1 ltac:(rewrite Pos2Z.inj_xI; lia) ltac:(lia) ltac:(lia)).
  - exact (Hcase (Zpos q) 0 ltac:(rewrite Pos2Z.inj_xO; lia) ltac:(lia) ltac:(lia)).
  - exact (Hcase 0 1 eq_refl ltac:(lia) ltac:(lia)).
Qed.

Lemma shr_iter_inv (M : Z) (n : positive) :
  0 <= M ->
  shr_inv M (2 ^ (Zpos n - 1)) (Pos.iter shr_1 {| shr_m := M; shr_r := false; shr_s := false |} n).
Proof.
  intros HM. induction n as [|n IH] using Pos.peano_ind.
  - change (2 ^ (1 - 1)) with 1. exists 0. simpl.
    destruct M as [|[q|q|]|q]; simpl; try lia;
      (split; [rewrite ?Pos2Z.inj_xI, ?Pos2Z.inj_xO; lia|]);
      (split; [lia|]); (split; [split; [discriminate|lia]|lia]).
  - rewrite Pos.iter_succ. replace (Zpos (Pos.succ n) - 1) with (Z.succ (Zpos n - 1)) by lia.
    rewrite Z.pow_succ_r by lia. apply shr_1_inv; [apply Z.pow_pos_nonneg; lia | exact IH].
Qed.

(** Rounding to nearest, ties to even, lands within half a step of [M]. *)
Lemma round_nearest_inv (M P : Z) (mrs : shr_record) :
  0 < P -> shr_inv M P mrs ->
  let m2 := round_nearest_even (shr_m mrs) (loc_of_shr_record mrs) in
  shr_m mrs <= m2 <= shr_m mrs + 1 /\ Z.abs (m2 * (2 * P) - M) <= P.
Proof.
  intros HP (t & HM & Ht & Hs & Hm). cbn zeta.
  destruct mrs as [m r s]; simpl in *.
  destruct r, s; simpl.
  - assert (t <> 0) by (apply Hs; reflexivity). split; lia.
  - assert (t = 0) by (destruct (Z.eq_dec t 0); [auto|apply Hs in n; discriminate]).
    destruct (Z.even m); split; lia.
  - assert (t <> 0) by (apply Hs; reflexivity). split; lia.
  - split; lia.
Qed.

Lemma shr_fexp_shift (mx : positive) (ex : Z) :
  let g := fexp prec emax (Zpos (digits2_pos mx) + ex) in
  ex < g ->
  exists mrs, shr_fexp prec emax (Zpos mx) ex loc_Exact = (mrs, g) /\
              shr_inv (Zpos mx) (2 ^ (g - ex - 1)) mrs.
Proof.
  cbn zeta. intros Hlt. unfold shr_fexp, shr. change (Zdigits2 (Zpos mx)) with (Zpos (digits2_pos mx)).
  destruct (fexp prec emax (Zpos (digits2_pos mx) + ex) - ex) as [|p|p] eqn:E; try lia.
  eexists. split; [f_equal; lia|].
  rewrite iter_pos_iter. apply shr_iter_inv. lia.
Qed.

Lemma shr_fexp_noshift (m e : Z) :
  fexp prec emax (Zdigits2 m + e) <= e ->
  shr_fexp prec emax m e loc_Exact = ({| shr_m := m; shr_r := false; shr_s := false |}, e).
Proof.
  intros H. unfold shr_fexp, shr.
  destruct (fexp prec emax (Zdigits2 m + e) - e) eqn:E; try reflexivity. lia.
Qed.

(** [binary_round_aux] on a positive [mx * 2^ex]: the result is [m2] steps
    of [2^e0], where [e0] is the exponent of the format at that magnitude
    (or [ex] when no bit is dropped), at most half a step from the exact
    product; it is zero, a finite number with a mantissa below [2^53]
    (renormalised when rounding carried to [2^53]), or an overflow. *)
Lemma binary_round_aux_pos (mx : positive) (ex : Z) :
  let e0 := Z.max (fexp prec emax (Zpos (digits2_pos mx) + ex)) ex in
  exists m2, 0 <= m2 <= 2 ^ 53 /\
    2 * Z.abs (m2 * 2 ^ (e0 - ex) - Zpos mx) <= 2 ^ (e0 - ex) /\
    ((m2 = 0 /\ binary_round_aux prec emax false (Zpos mx) ex loc_Exact = S754_zero false) \/
     (exists m e, binary_round_aux prec emax false (Zpos mx) ex loc_Exact = S754_finite false m e /\
                  Zpos m < 2 ^ 53 /\ e0 <= e <= e0 + 1 /\ Zpos m * 2 ^ (e - e0) = m2) \/
     (binary_round_aux prec emax false (Zpos mx) ex loc_Exact = S754_infinity false /\
      emax - prec < e0 + 1)).
Proof.
  cbn zeta.
  pose proof (digits2_pos_bound mx) as [HDlo HDhi].
  set (D := Zpos (digits2_pos mx)) in *.
  set (g := fexp prec emax (D + ex)).
  assert (Hg : D + ex - 53 <= g /\ 3 - emax - prec <= g) by (unfold g, fexp, emin, prec, emax; lia).
  destruct (Z_lt_le_dec ex g) as [Hs|Hn].
  - replace (Z.max g ex) with g by lia.
    destruct (shr_fexp_shift mx ex Hs) as (mrs & Hsh & Hinv).
    change (fexp prec emax (Zpos (digits2_pos mx) + ex)) with g in Hsh, Hinv.
    assert (HP : 0 < 2 ^ (g - ex - 1)) by (apply Z.pow_pos_nonneg; lia).
    destruct (round_nearest_inv _ _ _ HP Hinv) as [Hm2 Habs].
    set (m2 := round_nearest_even (shr_m mrs) (loc_of_shr_record mrs)) in *.
    assert (H2P : 2 * 2 ^ (g - ex - 1) = 2 ^ (g - ex)).
    { rewrite <- Z.pow_succ_r by lia. f_equal. lia. }
    destruct Hinv as (t & HM & Ht & _ & Hm1).
    assert (Hm1lt : shr_m mrs < 2 ^ 53).
    { destruct (Z_le_gt_dec (g - ex) D) as [Hle|Hgt].
      - assert (Hsplit : 2 ^ D = 2 ^ (D - (g - ex)) * 2 ^ (g - ex))
          by (rewrite <- Z.pow_add_r by lia; f_equal; lia).
        assert (2 ^ (D - (g - ex)) <= 2 ^ 53) by (apply Z.pow_le_mono_r; lia).
        assert (shr_m mrs < 2 ^ (D - (g - ex))); [|lia].
        apply (Z.mul_lt_mono_pos_r (2 ^ (g - ex))); [apply Z.pow_pos_nonneg; lia|].
        rewrite <- Hsplit. rewrite <- H2P. destruct (shr_r mrs); lia.
      - assert (2 ^ D <= 2 ^ (g - ex)) by (apply Z.pow_le_mono_r; lia).
        assert (0 < 2 ^ 53) by lia. rewrite <- H2P in *. destruct (shr_r mrs); nia. }
    exists m2. split; [lia|]. split; [rewrite <- H2P; lia|].
    unfold binary_round_aux. rewrite Hsh. fold m2.
    destruct (Z.eq_dec m2 0) as [E0|N0]; [|destruct (Z.eq_dec m2 (2 ^ 53)) as [E53|N53]].
    + left. split; [exact E0|]. rewrite E0, shr_fexp_noshift; [reflexivity|].
      unfold fexp, emin, prec, emax in *. simpl Zdigits2. lia.
    + right. rewrite E53. unfold shr_fexp. change (Zdigits2 (2 ^ 53)) with 54.
      replace (fexp prec emax (54 + g) - g) with 1 by (unfold fexp, emin, prec, emax in *; lia).
      cbv [shr shr_m iter_pos shr_1 shr_record_of_loc].
      change (Z.pow_pos 2 53 / 2) with (Zpos (2 ^ 52)).
      destruct (Z.leb_spec (g + 1) (emax - prec)).
      * left. exists (2 ^ 52)%positive, (g + 1). repeat split; [lia..|].
        replace (g + 1 - g) with 1 by lia. reflexivity.
      * right. split; [reflexivity | lia].
    + right. destruct m2 as [|pm|pm] eqn:Em; try lia.
      pose proof (digits2_pos_le pm 53 ltac:(lia)).
      rewrite shr_fexp_noshift by (unfold fexp, emin, prec, emax in *; simpl Zdigits2; lia).
      cbv [shr_m].
      destruct (Z.leb_spec g (emax - prec)).
      * left. exists pm, g. repeat split; [lia..|]. rewrite Z.sub_diag. lia.
      * right. split; [reflexivity | lia].
  - replace (Z.max g ex) with ex by lia.
    assert (HD : D <= 53) by lia.
    assert (Hmx : Zpos mx < 2 ^ 53) by (eapply Z.lt_le_trans; [exact HDhi | apply Z.pow_le_mono_r; lia]).
    exists (Zpos mx). rewrite Z.sub_diag. split; [lia|]. split; [simpl; lia|].
    unfold binary_round_aux.
    rewrite shr_fexp_noshift by (change (Zdigits2 (Zpos mx)) with D; fold g; lia).
    cbv [shr_m loc_of_shr_record round_nearest_even shr_r shr_s].
    rewrite shr_fexp_noshift by (change (Zdigits2 (Zpos mx)) with D; fold g; lia).
    cbv [shr_m]. right.
    destruct (Z.leb_spec ex (emax - prec)).
    + left. exists mx, ex. repeat split; [lia..|]. rewrite Z.sub_diag. lia.
    + right. split; [reflexivity | lia].
Qed.

(** ** Values in steps of [2^-K] *)

Lemma pow2_pos (k : Z) : 0 <= k -> 0 < 2 ^ k.
Proof. intros H. apply Z.pow_pos_nonneg; lia. Qed.

Lemma to_pos_pow2 (k : Z) : 0 <= k -> Zpos (Z.to_pos (2 ^ k)) = 2 ^ k.
Proof. intros H. apply Z2Pos.id, pow2_pos, H. Qed.

(** A positive finite number that is [m2] steps of [2^e0], [e0 <= 0]. *)
Lemma fval_steps (m : positive) (e e0 m2 : Z) :
  e0 <= e -> e0 <= 0 -> Zpos m * 2 ^ (e - e0) = m2 ->
  fval (S754_finite false m e) == m2 # Z.to_pos (2 ^ (- e0)).
Proof.
  intros He He0 Hm. unfold Qeq, fval. simpl cond_Zopp. subst m2.
  destruct e as [|p|k]; cbn [Qnum Qden inject_Z]; rewrite to_pos_pow2 by lia.
  - assert (E : 0 - e0 = - e0) by lia. rewrite E. change (2 ^ 0) with 1. lia.
  - assert (2 ^ (Zpos p - e0) = 2 ^ Zpos p * 2 ^ (- e0))
      by (rewrite <- Z.pow_add_r by lia; f_equal; lia). lia.
  - rewrite Pos2Z.inj_pow.
    assert (2 ^ (- e0) = 2 ^ (Zneg k - e0) * 2 ^ Zpos k)
      by (rewrite <- Z.pow_add_r by lia; f_equal; lia). lia.
Qed.

Lemma steps_le (m2 B K : Z) :
  0 <= K -> ((m2 # Z.to_pos (2 ^ K)) <= inject_Z B)%Q <-> m2 <= B * 2 ^ K.
Proof. intros H. unfold Qle. simpl. rewrite to_pos_pow2 by exact H. lia. Qed.

Lemma steps_lt (m2 B K : Z) :
  0 <= K -> ((m2 # Z.to_pos (2 ^ K)) < inject_Z B)%Q <-> m2 < B * 2 ^ K.
Proof. intros H. unfold Qlt. simpl. rewrite to_pos_pow2 by exact H. lia. Qed.

Lemma steps_nonneg (m2 K : Z) : 0 <= m2 -> (0 <= m2 # Z.to_pos (2 ^ K))%Q.
Proof. intros H. unfold Qle. simpl. lia. Qed.

(** ** Rounding a product that fits below [2^c], [c <= 53] *)

Lemma round_core (mx : positive) (ex c : Z) :
  Zpos mx < 2 ^ (c - ex) -> c <= 53 -> 3 - emax - prec <= c - 53 -> ex <= 0 ->
  exists m2 e0, ex <= e0 <= Z.max (c - 53) ex /\ e0 <= 0 /\ 0 <= m2 /\
    2 * (m2 * 2 ^ (e0 - ex)) <= 2 * Zpos mx + 2 ^ (e0 - ex) /\
    (binary_round_aux prec emax false (Zpos mx) ex loc_Exact = S754_zero false \/
     exists m e, binary_round_aux prec emax false (Zpos mx) ex loc_Exact = S754_finite false m e /\
       Zpos m < 2 ^ 53 /\ fval (S754_finite false m e) == m2 # Z.to_pos (2 ^ (- e0))).
Proof.
  intros Hmx Hc Hcmin Hex.
  assert (HD : Zpos (digits2_pos mx) <= c - ex) by (apply digits2_pos_le, Hmx).
  destruct (binary_round_aux_pos mx ex) as (m2 & Hm2 & Habs & Hr).
  set (e0 := Z.max (fexp prec emax (Zpos (digits2_pos mx) + ex)) ex) in *.
  assert (He0 : ex <= e0 <= Z.max (c - 53) ex)
    by (unfold e0, fexp, emin in *; unfold prec, emax in *; lia).
  assert (He0' : e0 <= 0) by lia.
  exists m2, e0. do 3 (split; [lia|]). split; [lia|].
  destruct Hr as [[_ Hz]|[(m & e & Hf & Hm & He & Hme)|(_ & Hbig)]].
  - left. exact Hz.
  - right. exists m, e. do 2 (split; [assumption|]). apply fval_steps; lia.
  - unfold emax, prec in Hbig. lia.
Qed.

(** At most [B]: the product is at most the integer [B]. *)
Lemma round_le (mx : positive) (ex c B : Z) :
  Zpos mx < 2 ^ (c - ex) -> c <= 53 -> 3 - emax - prec <= c - 53 -> ex <= 0 ->
  Zpos mx <= B * 2 ^ (- ex) ->
  binary_round_aux prec emax false (Zpos mx) ex loc_Exact = S754_zero false \/
  exists m e, binary_round_aux prec emax false (Zpos mx) ex loc_Exact = S754_finite false m e /\
    Zpos m < 2 ^ 53 /\ (0 <= fval (S754_finite false m e) <= inject_Z B)%Q.
Proof.
  intros Hmx Hc Hcmin Hex HB.
  destruct (round_core mx ex c Hmx Hc Hcmin Hex) as (m2 & e0 & He0 & He0' & Hm2 & Habs & Hr).
  destruct Hr as [Hz|(m & e & Hf & Hm & Hv)]; [left; exact Hz|right].
  exists m, e. do 2 (split; [assumption|]). rewrite Hv.
  split; [apply steps_nonneg, Hm2 | apply steps_le; [lia|]].
  assert (Hs : 2 ^ (- ex) = 2 ^ (- e0) * 2 ^ (e0 - ex)) by (rewrite <- Z.pow_add_r by lia; f_equal; lia).
  pose proof (pow2_pos (e0 - ex) ltac:(lia)). pose proof (pow2_pos (- e0) ltac:(lia)).
  rewrite Hs in HB. nia.
Qed.

(** Below [B]: the product plus half a step at exponent [max (c - 53) ex]
    stays below the integer [B]. *)
Lemma round_lt (mx : positive) (ex c B : Z) :
  Zpos mx < 2 ^ (c - ex) -> c <= 53 -> 3 - emax - prec <= c - 53 -> ex <= 0 ->
  2 * Zpos mx + 2 ^ (Z.max (c - 53) ex - ex) < 2 * B * 2 ^ (- ex) ->
  binary_round_aux prec emax false (Zpos mx) ex loc_Exact = S754_zero false \/
  exists m e, binary_round_aux prec emax false (Zpos mx) ex loc_Exact = S754_finite false m e /\
    Zpos m < 2 ^ 53 /\ (0 <= fval (S754_finite false m e) < inject_Z B)%Q.
Proof.
  intros Hmx Hc Hcmin Hex HB.
  destruct (round_core mx ex c Hmx Hc Hcmin Hex) as (m2 & e0 & He0 & He0' & Hm2 & Habs & Hr).
  destruct Hr as [Hz|(m & e & Hf & Hm & Hv)]; [left; exact Hz|right].
  exists m, e. do 2 (split; [assumption|]). rewrite Hv.
  split; [apply steps_nonneg, Hm2 | apply steps_lt; [lia|]].
  assert (Hs : 2 ^ (- ex) = 2 ^ (- e0) * 2 ^ (e0 - ex)) by (rewrite <- Z.pow_add_r by lia; f_equal; lia).
  assert (Hmono : 2 ^ (e0 - ex) <= 2 ^ (Z.max (c - 53) ex - ex)) by (apply Z.pow_le_mono_r; lia).
  pose proof (pow2_pos (e0 - ex) ltac:(lia)). pose proof (pow2_pos (- e0) ltac:(lia)).
  rewrite Hs in HB. nia.
Qed.

(** ** Products of a probability with an integer constant *)

Lemma of_Z_100 : of_Z 100 = S754_finite false 7036874417766400 (-46).
Proof. vm_compute. reflexivity. Qed.

Lemma of_Z_10000 : of_Z 10000 = S754_finite false 5497558138880000 (-39).
Proof. vm_compute. reflexivity. Qed.

Lemma fval_neg (m : positive) (e : Z) : (fval (S754_finite true m e) < 0)%Q.
Proof. unfold fval, Qlt. destruct e; simpl; lia. Qed.

(** A positive number of value at most 1 has a negative exponent and at
    most [2^-e] as mantissa. *)
Lemma fval_le_one (m : positive) (e : Z) :
  (fval (S754_finite false m e) <= 1)%Q -> e <= 0 /\ Zpos m <= 2 ^ (- e).
Proof.
  intros H. destruct (Z_le_gt_dec e 0) as [He|He].
  - split; [exact He|].
    rewrite (fval_steps m e e (Zpos m)) in H by (rewrite ?Z.sub_diag; lia).
    apply (steps_le _ 1) in H; lia.
  - exfalso. destruct e as [|p|]; try lia. unfold fval, Qle in H. simpl in H.
    assert (2 ^ 1 <= 2 ^ Zpos p) by (apply Z.pow_le_mono_r; lia). simpl in *. lia.
Qed.

(** A valid positive number below 1 is at most [1 - 2^-53], and its exponent
    is at most [-53]. *)
Lemma valid_below_one (m : positive) (e : Z) :
  valid (S754_finite false m e) = true -> (fval (S754_finite false m e) < 1)%Q ->
  e <= -53 /\ Zpos m * 2 ^ 53 <= (2 ^ 53 - 1) * 2 ^ (- e).
Proof.
  intros Hv Hlt. pose proof (valid_mantissa false m e Hv) as Hm.
  destruct (fval_le_one m e (Qlt_le_weak _ _ Hlt)) as [He _].
  rewrite (fval_steps m e e (Zpos m)) in Hlt by (rewrite ?Z.sub_diag; lia).
  apply (steps_lt _ 1) in Hlt; [|lia].
  unfold valid, valid_binary, bounded, canonical_mantissa in Hv.
  apply andb_prop in Hv as [Hc _]. apply Z.eqb_eq in Hc.
  unfold fexp, emin, prec, emax in Hc.
  pose proof (digits2_pos_bound m) as [Hlo _].
  assert (He53 : e <= -53).
  { destruct (Z.eq_dec e (-1074)) as [->|Hne]; [lia|].
    assert (HD : Zpos (digits2_pos m) = 53) by lia. rewrite HD in Hlo.
    destruct (Z_le_gt_dec e (-53)) as [|Hgt]; [assumption|].
    assert (2 ^ (- e) <= 2 ^ (53 - 1)) by (apply Z.pow_le_mono_r; lia). lia. }
  split; [exact He53|].
  assert (2 ^ 53 <= 2 ^ (- e)) by (apply Z.pow_le_mono_r; lia).
  nia.
Qed.

(** [p * 100] for a probability [p]: zero, or a finite number with a
    53-bit mantissa in [0, 100]. *)
Lemma mul_percent (x : t) :
  is_finite x = true -> (0 <= fval x <= 1)%Q ->
  (exists s, mul x (of_Z 100) = S754_zero s) \/
  exists m e, mul x (of_Z 100) = S754_finite false m e /\ Zpos m < 2 ^ 53 /\
    (0 <= fval (S754_finite false m e) <= 100)%Q.
Proof.
  intros Hfin [H0 H1]. rewrite of_Z_100.
  destruct x as [s|s| |[] m e]; try discriminate.
  - left. exists (xorb s false). reflexivity.
  - exfalso. pose proof (fval_neg m e). apply (Qlt_not_le _ _ H), H0.
  - destruct (fval_le_one m e H1) as [He Hm].
    assert (Hpow : 2 ^ (46 - e) = 2 ^ 46 * 2 ^ (- e)) by (rewrite <- Z.pow_add_r by lia; f_equal; lia).
    assert (Hpow' : 2 ^ (53 - e) = 2 ^ 53 * 2 ^ (- e)) by (rewrite <- Z.pow_add_r by lia; f_equal; lia).
    destruct (round_le (m * 7036874417766400) (e + -46) 7 100) as [Hz|(m' & e' & Hr & Hm' & Hv)];
      unfold emax, prec; rewrite ?Pos2Z.inj_mul; try lia.
    + replace (7 - (e + -46)) with (53 - e) by lia. rewrite Hpow'. nia.
    + replace (- (e + -46)) with (46 - e) by lia. rewrite Hpow. nia.
    + left. eexists. exact Hz.
    + right. exists m', e'. split; [exact Hr|]. split; [exact Hm'|]. exact Hv.
Qed.

(** [r * 10000] for [r] in [0, 1): zero, or a finite number with a 53-bit
    mantissa in [0, 10000). *)
Lemma mul_random (x : t) :
  valid x = true -> is_finite x = true -> (0 <= fval x < 1)%Q ->
  (exists s, mul x (of_Z 10000) = S754_zero s) \/
  exists m e, mul x (of_Z 10000) = S754_finite false m e /\ Zpos m < 2 ^ 53 /\
    (0 <= fval (S754_finite false m e) < 10000)%Q.
Proof.
  intros Hv Hfin [H0 H1]. rewrite of_Z_10000.
  destruct x as [s|s| |[] m e]; try discriminate.
  - left. exists (xorb s false). reflexivity.
  - exfalso. pose proof (fval_neg m e). apply (Qlt_not_le _ _ H), H0.
  - destruct (valid_below_one m e Hv H1) as [He Hm].
    destruct (fval_le_one m e (Qlt_le_weak _ _ H1)) as [_ Hm1].
    assert (Hpow : 2 ^ (39 - e) = 2 ^ 39 * 2 ^ (- e)) by (rewrite <- Z.pow_add_r by lia; f_equal; lia).
    assert (Hpow' : 2 ^ (53 - e) = 2 ^ 53 * 2 ^ (- e)) by (rewrite <- Z.pow_add_r by lia; f_equal; lia).
    destruct (round_lt (m * 5497558138880000) (e + -39) 14 10000) as [Hz|(m' & e' & Hr & Hm' & Hv')];
      unfold emax, prec; rewrite ?Pos2Z.inj_mul; try lia.
    + replace (14 - (e + -39)) with (53 - e) by lia. rewrite Hpow'. nia.
    + replace (Z.max (14 - 53) (e + -39) - (e + -39)) with (- e) by lia.
      replace (- (e + -39)) with (39 - e) by lia. rewrite Hpow. nia.
    + left. eexists. exact Hz.
    + right. exists m', e'. split; [exact Hr|]. split; [exact Hm'|]. exact Hv'.
Qed.

(** ** [Math.round] and [Math.floor] of such products *)

Lemma math_round_range (r : t) (B : Z) :
  (exists s, r = S754_zero s) \/
  (exists m e, r = S754_finite false m e /\ Zpos m < 2 ^ 53 /\
    (0 <= fval (S754_finite false m e) <= inject_Z B)%Q) ->
  0 <= B ->
  is_finite (math_round r) = true /\ exists n, 0 <= n <= B /\ fval (math_round r) == inject_Z n.
Proof.
  intros [(s & ->)|(m & e & -> & Hm & H0 & HB)] HB0.
  - split; [reflexivity|]. exists 0. split; [lia | reflexivity].
  - split; [apply math_round_is_finite, Hm|].
    exists (Qfloor (fval (S754_finite false m e) + (1 # 2))).
    split; [|apply math_round_finite, Hm]. split.
    + change 0 with (Qfloor (0 + (1 # 2))). apply Qfloor_resp_le, Qplus_le_compat; [exact H0 | apply Qle_refl].
    + rewrite <- (Qfloor_int_half B). apply Qfloor_resp_le, Qplus_le_compat; [exact HB | apply Qle_refl].
Qed.

Lemma math_floor_range (r : t) (B : Z) :
  (exists s, r = S754_zero s) \/
  (exists m e, r = S754_finite false m e /\ Zpos m < 2 ^ 53 /\
    (0 <= fval (S754_finite false m e) < inject_Z B)%Q) ->
  0 < B ->
  is_finite (math_floor r) = true /\ exists n, 0 <= n < B /\ fval (math_floor r) == inject_Z n.
Proof.
  intros [(s & ->)|(m & e & -> & Hm & H0 & HB)] HB0.
  - split; [reflexivity|]. exists 0. split; [lia | reflexivity].
  - split; [apply math_floor_is_finite, Hm|].
    exists (Qfloor (fval (S754_finite false m e))).
    split; [|apply math_floor_finite, Hm]. split.
    + change 0 with (Qfloor 0). apply Qfloor_resp_le, H0.
    + rewrite Zlt_Qlt. eapply Qle_lt_trans; [apply Qfloor_le | exact HB].
Qed.

End Rounding.
