(* ===== verification/JSString.v ===== *)
(** * JavaScript strings and their conversions to and from numbers

    A JavaScript string is a sequence of UTF-16 code units, modelled as a
    [list Z].  The component converts in both directions: the template
    literal of [predictionDate] renders integers with [ToString], and
    [Number(idPatient)] parses the FHIR reference with [StringToNumber]
    (ECMA-262, 7.1.4.1.1): surrounding white space is ignored, the empty
    string is [+0], the literal is a decimal (with sign, fraction,
    exponent, or [Infinity]) or a [0x]/[0o]/[0b] integer, and anything else
    is NaN.  The mathematical value is rounded to the nearest number. *)

From Stdlib Require Import ZArith Lia.
From Stdlib Require Import Floats.SpecFloat.
From S2P Require Import Prelude Binary64.

Local Open Scope Z_scope.

Module JSString.

Abbreviation t := (list Z).

(** The code units of an ASCII literal of the source. *)
Definition u (s : string) : t :=
  map (fun c => Z.of_N (Ascii.N_of_ascii c)) (String.list_ascii_of_string s).

(** [Array.prototype.join(sep)] on an array of strings. *)
Fixpoint join (sep : t) (l : list t) : t :=
  match l with
  | [] => []
  | [x] => x
  | x :: r => x ++ sep ++ join sep r
  end.

(** ** [ToString] on integral numbers: decimal digits *)

Definition digit_char (d : Z) : Z := 48 + d.

(** The decimal digits of [n >= 0], most significant first; [fuel] bounds
    the number of digits. *)
Fixpoint to_digits (fuel : nat) (n : Z) : list Z :=
  match fuel with
  | O => []
  | S f => if n <? 10 then [n] else to_digits f (n / 10) ++ [n mod 10]
  end.

Definition digits_fuel (n : Z) : nat := S (Z.to_nat (Z.log2 n)).

Definition of_int (n : Z) : t :=
  let ds := map digit_char (to_digits (digits_fuel (Z.abs n)) (Z.abs n)) in
  if n <? 0 then 45 :: ds else ds.

(** [String.prototype.split] with a separator of one code unit:
    ["a/b".split("/")] is [["a"; "b"]], [["".split("/")]] is [[""]]. *)
Fixpoint split (sep : Z) (s : t) : list t :=
  match s with
  | [] => [[]]
  | c :: s' =>
      if c =? sep then [] :: split sep s'
      else match split sep s' with
           | [] => [[c]]
           | w :: ws => (c :: w) :: ws
           end
  end.

(** ** [StringToNumber] *)

(** [StrWhiteSpaceChar]: white space and line terminators. *)
Definition is_ws (c : Z) : bool :=
  (c =? 9) || (c =? 10) || (c =? 11) || (c =? 12) || (c =? 13) || (c =? 32) ||
  (c =? 160) || (c =? 5760) || ((8192 <=? c) && (c <=? 8202)) ||
  (c =? 8232) || (c =? 8233) || (c =? 8239) || (c =? 8287) || (c =? 12288) ||
  (c =? 65279).

Fixpoint drop_ws (s : t) : t :=
  match s with
  | c :: r => if is_ws c then drop_ws r else s
  | [] => []
  end.

Definition trim (s : t) : t := rev (drop_ws (rev (drop_ws s))).

(** The value of a digit character in [base], if it is one. *)
Definition digit_value (base c : Z) : option Z :=
  let v := if (48 <=? c) && (c <=? 57) then c - 48
           else if (97 <=? c) && (c <=? 122) then c - 87
           else if (65 <=? c) && (c <=? 90) then c - 55
           else 99 in
  if v <? base then Some v else None.

(** The longest prefix of digits in [base], as values, and the rest. *)
Fixpoint span_digits (base : Z) (s : t) : list Z * t :=
  match s with
  | c :: r =>
      match digit_value base c with
      | Some d => let '(ds, rest) := span_digits base r in (d :: ds, rest)
      | None => ([], s)
      end
  | [] => ([], [])
  end.

Definition digits_value (base : Z) (ds : list Z) : Z :=
  fold_left (fun acc d => acc * base + d) ds 0.

(** An optional sign: [true] for [-]. *)
Definition parse_sign (s : t) : bool * t :=
  match s with
  | c :: r => if c =? 43 then (false, r) else if c =? 45 then (true, r) else (false, s)
  | [] => (false, [])
  end.

(** The digits of an exponent, up to the end of the input. *)
Definition parse_exponent (s : t) : option Z :=
  let '(neg, s1) := parse_sign s in
  match span_digits 10 s1 with
  | ((_ :: _) as ds, []) => Some (if neg then - digits_value 10 ds else digits_value 10 ds)
  | _ => None
  end.

Inductive literal :=
  | LitInfinity
  (** [D * 10^E], written with [nd] significant-or-leading digits *)
  | LitDecimal (D E nd : Z).

(** [StrUnsignedDecimalLiteral], up to the end of the input. *)
Definition parse_unsigned_decimal (s : t) : option literal :=
  if decide (s = u "Infinity") then Some LitInfinity else
  let '(int_ds, s1) := span_digits 10 s in
  let '(frac_ds, s2) :=
    match s1 with
    | c :: r => if c =? 46 then span_digits 10 r else ([], s1)
    | [] => ([], [])
    end in
  match int_ds ++ frac_ds with
  | [] => None
  | ds =>
      let exp := match s2 with
                 | [] => Some 0
                 | c :: r => if (c =? 101) || (c =? 69) then parse_exponent r else None
                 end in
      match exp with
      | Some x => Some (LitDecimal (digits_value 10 ds) (x - Z.of_nat (length frac_ds))
                                   (Z.of_nat (length ds)))
      | None => None
      end
  end.

(** [NonDecimalIntegerLiteral]: [0x], [0o], [0b] and their digits. *)
Definition parse_non_decimal (s : t) : option Z :=
  match s with
  | z :: x :: r =>
      let base := if (x =? 120) || (x =? 88) then 16
                  else if (x =? 111) || (x =? 79) then 8
                  else if (x =? 98) || (x =? 66) then 2 else 0 in
      if (z =? 48) && negb (base =? 0) then
        match span_digits base r with
        | ((_ :: _) as ds, []) => Some (digits_value base ds)
        | _ => None
        end
      else None
  | _ => None
  end.

(** The number nearest to [D * 10^E].  A negative power is a correctly
    rounded division of two integers; beyond [10^309] the result is
    infinite and below [10^-324] it is zero, whatever the digits. *)
Definition round_decimal (D E nd : Z) : Number.t :=
  match D with
  | Zpos m =>
      if 0 <=? E then
        (if 309 <? E then S754_infinity false else Number.of_Z (D * 10 ^ E))
      else if E + nd <=? -324 then S754_zero false
      else Number.div (S754_finite false m 0) (S754_finite false (Z.to_pos (10 ^ (- E))) 0)
  | _ => S754_zero false
  end.

(** [StrNumericLiteral] on a trimmed, non-empty string. *)
Definition numeric_literal_value (s : t) : Number.t :=
  match parse_non_decimal s with
  | Some n => Number.of_Z n
  | None =>
      let '(neg, r) := parse_sign s in
      match parse_unsigned_decimal r with
      | Some LitInfinity => S754_infinity neg
      | Some (LitDecimal D E nd) =>
          if neg then SFopp (round_decimal D E nd) else round_decimal D E nd
      | None => S754_nan
      end
  end.

Definition to_number (s : t) : Number.t :=
  match trim s with
  | [] => S754_zero false
  | s' => numeric_literal_value s'
  end.

(** ** Lemmas on the decimal rendering *)

Definition is_digit (d : Z) : Prop := 0 <= d <= 9.

Lemma to_digits_spec (f : nat) (n : Z) :
  0 <= n < 2 ^ Z.of_nat (S f) ->
  let ds := to_digits (S f) n in
  ds <> [] /\ Forall is_digit ds /\ digits_value 10 ds = n.
Proof.
  revert n. induction f as [|f IH]; intros n Hn; cbn zeta.
  - simpl in Hn. simpl. replace (n <? 10) with true by lia.
    split; [discriminate|]. split; [constructor; [unfold is_digit; lia|constructor]|].
    reflexivity.
  - change (to_digits (S (S f)) n) with
      (if n <? 10 then [n] else to_digits (S f) (n / 10) ++ [n mod 10]).
    destruct (Z.ltb_spec n 10).
    + split; [discriminate|]. split; [constructor; [unfold is_digit; lia|constructor]|].
      reflexivity.
    + assert (Hq : 0 <= n / 10 < 2 ^ Z.of_nat (S f)).
      { rewrite Nat2Z.inj_succ in *. rewrite Z.pow_succ_r in Hn by lia.
        split; [apply Z.div_pos; lia|]. apply Z.div_lt_upper_bound; lia. }
      destruct (IH (n / 10) Hq) as (_ & Hd & Hv).
      split; [destruct (to_digits (S f) (n / 10)); discriminate|].
      split.
      * apply Forall_app. split; [exact Hd|]. constructor; [|constructor].
        unfold is_digit. pose proof (Z.mod_pos_bound n 10). lia.
      * unfold digits_value in *. rewrite fold_left_app, Hv. simpl.
        pose proof (Z.div_mod n 10). lia.
Qed.

Lemma digits_fuel_enough (n : Z) :
  0 <= n -> 0 <= n < 2 ^ Z.of_nat (digits_fuel n).
Proof.
  intros Hn. unfold digits_fuel. rewrite Nat2Z.inj_succ, Z2Nat.id by apply Z.log2_nonneg.
  destruct (Z.eq_dec n 0) as [->|Hne]; [simpl; lia|].
  pose proof (Z.log2_spec n) as [_ Hlt]; lia.
Qed.

Lemma span_digits_decimal (ds : list Z) :
  Forall is_digit ds -> span_digits 10 (map digit_char ds) = (ds, []).
Proof.
  induction 1 as [|d ds Hd _ IH]; [reflexivity|].
  simpl. unfold digit_value, digit_char, is_digit in *.
  replace ((48 <=? 48 + d) && (48 + d <=? 57)) with true by (symmetry; apply andb_true_iff; lia).
  replace (48 + d - 48 <? 10) with true by lia. rewrite IH.
  replace (48 + d - 48) with d by lia. reflexivity.
Qed.

Lemma drop_ws_id (s : t) : Forall (fun c => is_ws c = false) s -> drop_ws s = s.
Proof. destruct 1 as [|c r Hc _]; [reflexivity|]. simpl. rewrite Hc. reflexivity. Qed.

Lemma trim_id (s : t) : Forall (fun c => is_ws c = false) s -> trim s = s.
Proof.
  intros H. unfold trim. rewrite (drop_ws_id s H), drop_ws_id; [apply rev_involutive|].
  apply Forall_rev. exact H.
Qed.

Lemma digit_char_not_ws (ds : list Z) :
  Forall is_digit ds -> Forall (fun c => is_ws c = false) (map digit_char ds).
Proof.
  intros H. apply Forall_map. eapply Forall_impl; [exact H|].
  intros d Hd. unfold is_digit, digit_char, is_ws in *.
  repeat (apply orb_false_iff; split); try (apply andb_false_iff); lia.
Qed.

Lemma parse_non_decimal_digits (ds : list Z) :
  Forall is_digit ds -> parse_non_decimal (map digit_char ds) = None.
Proof.
  intros H. destruct H as [|d1 ds Hd1 H]; [reflexivity|].
  destruct H as [|d2 ds Hd2 _]; [reflexivity|].
  unfold is_digit in *. simpl map. unfold parse_non_decimal, digit_char.
  replace ((48 + d2 =? 120) || (48 + d2 =? 88)) with false by lia.
  replace ((48 + d2 =? 111) || (48 + d2 =? 79)) with false by lia.
  replace ((48 + d2 =? 98) || (48 + d2 =? 66)) with false by lia.
  rewrite andb_false_r. reflexivity.
Qed.

Lemma parse_unsigned_decimal_digits (ds : list Z) :
  ds <> [] -> Forall is_digit ds ->
  parse_unsigned_decimal (map digit_char ds) =
    Some (LitDecimal (digits_value 10 ds) 0 (Z.of_nat (length ds))).
Proof.
  intros Hne Hd. unfold parse_unsigned_decimal.
  rewrite decide_False.
  2:{ destruct Hd as [|d ds' Hd0 _]; [done|]. unfold is_digit, digit_char in Hd0.
      simpl. unfold digit_char. intros [= Hc _]. lia. }
  rewrite span_digits_decimal by exact Hd. rewrite app_nil_r.
  destruct ds; [done|]. reflexivity.
Qed.

Lemma parse_non_decimal_minus (s : t) : parse_non_decimal (45 :: s) = None.
Proof. destruct s; reflexivity. Qed.

Lemma round_decimal_int (D nd : Z) : 0 <= D -> round_decimal D 0 nd = Number.of_Z D.
Proof.
  intros HD. destruct D as [|p|p]; [reflexivity| |lia].
  unfold round_decimal. simpl (0 <=? 0). simpl (309 <? 0). cbv iota.
  rewrite Z.mul_1_r. reflexivity.
Qed.

(** ** Round trip

    [Number(String(n))] is [n] for every integer [n]: rendering an
    integral number in decimal and parsing it back gives the number
    nearest to [n] (the number [n] itself below [2^53]). *)
(** ** Splitting rendered integers *)

Lemma split_not_nil (sep : Z) (s : t) : split sep s <> [].
Proof.
  induction s as [|c s IH]; simpl; [discriminate|].
  destruct (c =? sep); [discriminate|]. destruct (split sep s); discriminate.
Qed.

Lemma split_without (sep : Z) (a : t) :
  Forall (fun c => c <> sep) a -> forall b, split sep (a ++ b) =
    match split sep b with [] => [a] | w :: ws => (a ++ w) :: ws end.
Proof.
  induction 1 as [|c a Hc Ha IH]; intros b; simpl.
  - destruct (split sep b) eqn:E; [destruct (split_not_nil sep b E) | reflexivity].
  - rewrite (proj2 (Z.eqb_neq c sep) Hc), IH.
    destruct (split sep b) eqn:E; [destruct (split_not_nil sep b E) | reflexivity].
Qed.

Lemma split_sep (sep : Z) (a b : t) :
  Forall (fun c => c <> sep) a -> split sep (a ++ sep :: b) = a :: split sep b.
Proof.
  intros Ha. rewrite (split_without sep a Ha). simpl. rewrite Z.eqb_refl. rewrite app_nil_r. reflexivity.
Qed.

Lemma split_last (sep : Z) (a : t) :
  Forall (fun c => c <> sep) a -> split sep a = [a].
Proof.
  intros Ha. rewrite <- (app_nil_r a) at 1. rewrite (split_without sep a Ha).
  simpl. rewrite app_nil_r. reflexivity.
Qed.

(** A rendered integer is made of digits and at most a minus sign. *)
Lemma of_int_chars (n : Z) : Forall (fun c => 48 <= c <= 57 \/ c = 45) (of_int n).
Proof.
  pose proof (digits_fuel_enough (Z.abs n) ltac:(lia)) as Hfuel. unfold digits_fuel in Hfuel.
  destruct (to_digits_spec _ _ Hfuel) as (_ & Hd & _).
  assert (Hm : Forall (fun c => 48 <= c <= 57 \/ c = 45)
                      (map digit_char (to_digits (digits_fuel (Z.abs n)) (Z.abs n)))).
  { apply Forall_map. eapply Forall_impl; [exact Hd|]. unfold is_digit, digit_char. intros; lia. }
  unfold of_int. destruct (n <? 0); [constructor; [right; reflexivity|]|]; exact Hm.
Qed.

(** ** [StringToNumber] on strings that are not numeric literals *)

Lemma drop_ws_snoc (l : t) (c : Z) :
  is_ws c = false -> exists l', drop_ws (l ++ [c]) = l' ++ [c].
Proof.
  intros Hc. induction l as [|a l IH]; simpl.
  - rewrite Hc. exists []. reflexivity.
  - destruct (is_ws a); [exact IH | exists (a :: l); reflexivity].
Qed.

(** Trimming keeps a first code unit that is not white space. *)
Lemma trim_cons (c : Z) (s : t) : is_ws c = false -> exists s', trim (c :: s) = c :: s'.
Proof.
  intros Hc. unfold trim. simpl. rewrite Hc. simpl.
  destruct (drop_ws_snoc (rev s) c Hc) as [l' ->].
  rewrite rev_app_distr. simpl. eauto.
Qed.

(** A string whose first code unit is not white space, a sign, a digit, a
    point or the [I] of [Infinity] is not a [StringNumericLiteral]: its
    value is NaN. *)
Lemma to_number_not_literal (c : Z) (s : t) :
  is_ws c = false -> digit_value 10 c = None ->
  c <> 43 -> c <> 45 -> c <> 46 -> c <> 48 -> c <> 73 ->
  to_number (c :: s) = S754_nan.
Proof.
  intros Hws Hd H43 H45 H46 H48 H73.
  apply Z.eqb_neq in H43, H45, H46, H48.
  destruct (trim_cons c s Hws) as [s' Ht]. unfold to_number. rewrite Ht.
  unfold numeric_literal_value, parse_non_decimal, parse_sign, parse_unsigned_decimal.
  destruct s' as [|x r]; cbn -[decide u]; rewrite ?H48, ?H43, ?H45; cbn -[decide u];
    (case_decide as Heq; [injection Heq; intros; lia|]); simpl; rewrite ?Hd, ?H46; reflexivity.
Qed.

(** A string of white space only is [0]. *)
Lemma to_number_blank (s : t) : forallb is_ws s = true -> to_number s = S754_zero false.
Proof.
  intros H. assert (Hd : drop_ws s = []).
  { induction s as [|c s IH]; simpl in *; [reflexivity|].
    apply andb_prop in H as [-> Hs]. exact (IH Hs). }
  unfold to_number, trim. rewrite Hd. reflexivity.
Qed.

Theorem to_number_of_int (n : Z) : to_number (of_int n) = Number.of_Z n.
Proof.
  pose proof (digits_fuel_enough (Z.abs n) ltac:(lia)) as Hfuel.
  unfold digits_fuel in Hfuel.
  destruct (to_digits_spec _ _ Hfuel) as (Hne & Hd & Hv).
  unfold of_int, digits_fuel.
  set (ds := to_digits (S (Z.to_nat (Z.log2 (Z.abs n)))) (Z.abs n)) in *.
  pose proof (digit_char_not_ws ds Hd) as Hws.
  destruct ds as [|d ds']; [done|].
  inversion Hd as [|? ? Hd0 _]; subst. unfold is_digit in Hd0.
  destruct (Z.ltb_spec n 0) as [Hneg|Hpos]; unfold to_number.
  - rewrite trim_id by (constructor; [reflexivity | exact Hws]).
    unfold numeric_literal_value. rewrite parse_non_decimal_minus.
    unfold parse_sign. simpl (45 =? 43). simpl (45 =? 45). cbv beta iota.
    rewrite parse_unsigned_decimal_digits, Hv, round_decimal_int by (done || lia).
    destruct n as [|p|p]; [lia|lia|]. symmetry. apply Number.of_Z_neg.
  - rewrite trim_id by exact Hws.
    change (numeric_literal_value (map digit_char (d :: ds')) = Number.of_Z n).
    unfold numeric_literal_value.
    rewrite parse_non_decimal_digits by exact Hd.
    simpl map. unfold parse_sign.
    replace (digit_char d =? 43) with false by (unfold digit_char; lia).
    replace (digit_char d =? 45) with false by (unfold digit_char; lia).
    cbv beta iota. change (digit_char d :: map digit_char ds') with (map digit_char (d :: ds')).
    rewrite parse_unsigned_decimal_digits, Hv, round_decimal_int by (done || lia).
    f_equal. lia.
Qed.

End JSString.
