(* ===== verification/Fhir.v ===== *)
(** * The data the page exchanges with the prediction service

    The response envelope ([FHIRData], [Datum], [Prediction]), the entry of
    the result list ([PredictionResult]) and a chart series
    ([ChartDataSets]).  The TypeScript interfaces live in
    [src/app/interfaces/*.interface.ts], which are not part of the sources
    given: their fields are the ones [home.page.ts] reads and the spec
    (section 6) lists.  A field the code may find absent is an [option]:
    reading a property of it then throws. *)

From Stdlib Require Import ZArith.
From Stdlib Require Import Floats.SpecFloat.
From S2P Require Import Prelude Binary64 JSString.

Module Fhir.

(** [outcome.coding[i]] *)
Record Coding := { code : JSString.t }.

(** [outcome]: a CodeableConcept; only its [coding] array is read. *)
Record Outcome := { coding : list Coding }.

(** One element of [prediction]: a per-model probability, or the summary
    entry (rationale ["summary"]) that also carries the outcome. *)
Record Prediction := {
  rationale : JSString.t;
  probabilityDecimal : Number.t;
  outcome : option Outcome;
}.

Record Subject := { display : JSString.t; reference : JSString.t }.

Record Datum := { subject : Subject; prediction : list Prediction }.

Record FHIRData := { data : list Datum }.

(** [valeursPredictions]: the six rounded percentages, by model
    (random forest, neural network, gradient-boosted trees) and outcome
    (ambulatory care, hospitalisation). *)
Record ValeursPredictions := {
  rfAmbulatoire : Number.t;
  rfHospitalise : Number.t;
  nnAmbulatoire : Number.t;
  nnHospitalise : Number.t;
  gbtAmbulatoire : Number.t;
  gbtHospitalise : Number.t;
}.

(** An entry of [predictionResult]. *)
Record PredictionResult := {
  idPatient : Number.t;
  nomPatient : JSString.t;
  summary : list Prediction;
  etatPrediction : JSString.t;
  pourcentage : Number.t;
  tableauPredictionsBrut : list Prediction;
  valeursPredictions : ValeursPredictions;
}.

(** A [ChartDataSets] of chart.js, with the two fields the page sets. *)
Record ChartDataSets := { chart_data : list Number.t; label : JSString.t }.

End Fhir.
