(* ===== verification/Mapper.v ===== *)
(** * The result mapper: the callback of [getPredictionResults]

    [home.page.ts], lines 133-179: the function given to [map] reads the
    first datum of the response, filters the summary entry, rounds seven
    probabilities to percentages, pushes one [PredictionResult] onto
    [this.predictionResult] and rebuilds [this.chartsData] from
    [this.predictionResult[0]].  Every read of a property of an absent
    element throws a [TypeError]; since the object literal is built before
    [push], a throw leaves both fields untouched. *)

From Stdlib Require Import ZArith QArith Qround Lia.
From Stdlib Require Import Floats.SpecFloat.
From S2P Require Import Prelude Binary64 Rounding JSString Fhir.

Local Open Scope js_scope.

Module Mapper.
Import Fhir.

(** The two fields of the component the callback writes. *)
Record Display := {
  predictionResult : list PredictionResult;
  chartsData : list ChartDataSets;
}.

(** [Math.round(p.probabilityDecimal * 100)] *)
Definition pct (p : Prediction) : Number.t :=
  Number.math_round (Number.mul (probabilityDecimal p) (Number.of_Z 100%Z)).

(** [prediction => prediction.rationale === 'summary'] *)
Definition is_summary (p : Prediction) : Prop := rationale p = JSString.u "summary".

#[export] Instance is_summary_dec p : Decision (is_summary p) := _.

(** Lines 137-162: the entry the callback pushes, or the [TypeError] the
    first absent element raises, in the order the code reads them. *)
Definition build_result (values : FHIRData) : throws PredictionResult :=
  let* d := read "subject" (data values !! 0) id in
  let userName := display (subject d) in
  let idPatient := reference (subject d) in
  let predictions := prediction d in
  let summary := filter is_summary predictions in
  let* pourcentage := read "probabilityDecimal" (summary !! 0) pct in
  let* coding0 := read "coding" (summary !! 0 ≫= outcome) coding in
  let* etatPrediction := read "code" (coding0 !! 0) code in
  let* rfA := read "probabilityDecimal" (predictions !! 0) pct in
  let* rfH := read "probabilityDecimal" (predictions !! 1) pct in
  let* nnA := read "probabilityDecimal" (predictions !! 2) pct in
  let* nnH := read "probabilityDecimal" (predictions !! 3) pct in
  let* gbtA := read "probabilityDecimal" (predictions !! 4) pct in
  let* gbtH := read "probabilityDecimal" (predictions !! 5) pct in
  Ok {| idPatient := JSString.to_number idPatient;
        nomPatient := userName;
        summary := summary;
        etatPrediction := etatPrediction;
        pourcentage := pourcentage;
        tableauPredictionsBrut := predictions;
        valeursPredictions :=
          {| rfAmbulatoire := rfA; rfHospitalise := rfH;
             nnAmbulatoire := nnA; nnHospitalise := nnH;
             gbtAmbulatoire := gbtA; gbtHospitalise := gbtH |} |}.

(** Lines 166-178: the two series, one value per model. *)
Definition charts_of (v : ValeursPredictions) : list ChartDataSets :=
  [ {| chart_data := [rfAmbulatoire v; nnAmbulatoire v; gbtAmbulatoire v];
       label := JSString.u "Soins Ambulatoire" |};
    {| chart_data := [rfHospitalise v; nnHospitalise v; gbtHospitalise v];
       label := JSString.u "Hospitalisation" |} ].

(** Lines 133-179: push the entry, then chart [this.predictionResult[0]]. *)
Definition on_values (values : FHIRData) (st : Display) : throws Display :=
  let* r := build_result values in
  let results := predictionResult st ++ [r] in
  let* first := read "valeursPredictions" (results !! 0) valeursPredictions in
  Ok {| predictionResult := results; chartsData := charts_of first |}.

(** ** Behaviour of the mapper *)

(** The summary entry the code takes: the first one tagged ["summary"]. *)
Definition first_summary (ps : list Prediction) : option Prediction :=
  filter is_summary ps !! 0.

(** The entry built from a well-formed envelope. *)
Lemma build_result_shape (values : FHIRData) (d : Datum) (rest : list Datum)
    (p0 p1 p2 p3 p4 p5 : Prediction) (more : list Prediction)
    (s : Prediction) (o : Outcome) (c : Coding) (cs : list Coding) :
  data values = d :: rest ->
  prediction d = p0 :: p1 :: p2 :: p3 :: p4 :: p5 :: more ->
  first_summary (prediction d) = Some s ->
  outcome s = Some o -> coding o = c :: cs ->
  build_result values =
    Ok {| idPatient := JSString.to_number (reference (subject d));
          nomPatient := display (subject d);
          summary := filter is_summary (prediction d);
          etatPrediction := code c;
          pourcentage := pct s;
          tableauPredictionsBrut := prediction d;
          valeursPredictions :=
            {| rfAmbulatoire := pct p0; rfHospitalise := pct p1;
               nnAmbulatoire := pct p2; nnHospitalise := pct p3;
               gbtAmbulatoire := pct p4; gbtHospitalise := pct p5 |} |}.
Proof.
  intros Hd Hp Hs Ho Hc. unfold build_result, first_summary in *.
  rewrite Hd. simpl. rewrite Hs. simpl. rewrite Ho. simpl. rewrite Hc.
  simpl. rewrite Hp. reflexivity.
Qed.

(** C1. On an envelope whose first datum has at least six predictions and a
    summary entry with a coded outcome, the entry built is the one of
    lines 147-162: the six percentages are [Math.round(p_i * 100)] of the
    first six predictions in order, the headline is that of the first
    summary entry, and the identifier is [Number(subject.reference)]. *)
Theorem build_result_spec (values : FHIRData) (d : Datum) (rest : list Datum)
    (p0 p1 p2 p3 p4 p5 : Prediction) (more : list Prediction)
    (s : Prediction) (o : Outcome) (c : Coding) (cs : list Coding) :
  data values = d :: rest ->
  prediction d = p0 :: p1 :: p2 :: p3 :: p4 :: p5 :: more ->
  first_summary (prediction d) = Some s ->
  outcome s = Some o -> coding o = c :: cs ->
  build_result values =
    Ok {| idPatient := JSString.to_number (reference (subject d));
          nomPatient := display (subject d);
          summary := filter is_summary (prediction d);
          etatPrediction := code c;
          pourcentage := pct s;
          tableauPredictionsBrut := prediction d;
          valeursPredictions :=
            {| rfAmbulatoire := pct p0; rfHospitalise := pct p1;
               nnAmbulatoire := pct p2; nnHospitalise := pct p3;
               gbtAmbulatoire := pct p4; gbtHospitalise := pct p5 |} |}.
Proof. exact (build_result_shape values d rest p0 p1 p2 p3 p4 p5 more s o c cs). Qed.

(** A successful callback appends the entry and charts the first one. *)
Lemma on_values_push (values : FHIRData) (st : Display) (r : PredictionResult) :
  build_result values = Ok r ->
  on_values values st =
    Ok {| predictionResult := predictionResult st ++ [r];
          chartsData := charts_of (valeursPredictions (default r (head (predictionResult st)))) |}.
Proof.
  intros H. unfold on_values. rewrite H. destruct (predictionResult st); reflexivity.
Qed.

(** C3. The callback succeeds on exactly the well-formed envelopes and then
    appends the entry at the end of the list (it never replaces), and the
    chart is rebuilt from the first entry of the list, which is the new
    entry only when the list was empty. *)
Theorem on_values_ok (values : FHIRData) (st : Display) (r : PredictionResult) :
  build_result values = Ok r ->
  on_values values st =
    Ok {| predictionResult := predictionResult st ++ [r];
          chartsData := charts_of (valeursPredictions (default r (head (predictionResult st)))) |}.
Proof. exact (on_values_push values st r). Qed.

(** A failing callback throws what [build_result] throws. *)
Lemma on_values_throw (values : FHIRData) (st : Display) (e : js_error) :
  build_result values = Throw e -> on_values values st = Throw e.
Proof. intros H. unfold on_values. rewrite H. reflexivity. Qed.


(** C16. An envelope with an empty [data] array makes [data.subject] throw. *)
Theorem build_result_no_datum (values : FHIRData) :
  data values = [] -> build_result values = Throw (TypeError JSundefined "subject").
Proof. intros H. unfold build_result. rewrite H. reflexivity. Qed.

(** C6. Without an entry tagged ["summary"], [summary[0].probabilityDecimal]
    throws: no other entry is taken as the headline. *)
Theorem build_result_no_summary (values : FHIRData) (d : Datum) (rest : list Datum) :
  data values = d :: rest ->
  Forall (fun p => ~ is_summary p) (prediction d) ->
  build_result values = Throw (TypeError JSundefined "probabilityDecimal").
Proof.
  intros Hd Hnone. unfold build_result. rewrite Hd. simpl.
  apply (proj2 (head_filter_None is_summary _)) in Hnone. rewrite head_lookup in Hnone.
  rewrite Hnone. reflexivity.
Qed.

(** C7. With a well-formed summary but fewer than six predictions, the read of
    [predictions[n].probabilityDecimal] at the first missing index throws:
    no partial entry is pushed. *)
Theorem build_result_short (values : FHIRData) (d : Datum) (rest : list Datum)
    (s : Prediction) (o : Outcome) (c : Coding) (cs : list Coding) :
  data values = d :: rest ->
  first_summary (prediction d) = Some s ->
  outcome s = Some o -> coding o = c :: cs ->
  length (prediction d) < 6 ->
  build_result values = Throw (TypeError JSundefined "probabilityDecimal").
Proof.
  intros Hd Hs Ho Hc Hlen. unfold build_result, first_summary in *.
  rewrite Hd. simpl. rewrite Hs. simpl. rewrite Ho. simpl. rewrite Hc. simpl.
  destruct (prediction d) as [|q0 [|q1 [|q2 [|q3 [|q4 [|q5 ps]]]]]];
    simpl in Hlen; try lia; reflexivity.
Qed.

(** C27. A summary entry without an outcome, or whose outcome has no coding,
    makes [summary[0].outcome.coding[0].code] throw: reading [coding] of
    [undefined], or [code] of the absent first coding. *)
Theorem build_result_no_coding (values : FHIRData) (d : Datum) (rest : list Datum)
    (s : Prediction) :
  data values = d :: rest -> first_summary (prediction d) = Some s ->
  (outcome s = None -> build_result values = Throw (TypeError JSundefined "coding")) /\
  (forall o, outcome s = Some o -> coding o = [] ->
             build_result values = Throw (TypeError JSundefined "code")).
Proof.
  intros Hd Hs. unfold build_result, first_summary in *. rewrite Hd. simpl. rewrite Hs. simpl.
  split; [intros Ho | intros o Ho Hc]; rewrite Ho; simpl; [|rewrite Hc]; reflexivity.
Qed.

(** C24. Nothing separates the summary from the six per-model entries: when
    the service puts the summary first, the random-forest ambulatory value
    displayed is the summary's headline percentage. *)
Theorem build_result_summary_counted (values : FHIRData) (d : Datum) (rest : list Datum)
    (s p1 p2 p3 p4 p5 : Prediction) (more : list Prediction)
    (o : Outcome) (c : Coding) (cs : list Coding) (r : PredictionResult) :
  data values = d :: rest ->
  prediction d = s :: p1 :: p2 :: p3 :: p4 :: p5 :: more ->
  is_summary s -> outcome s = Some o -> coding o = c :: cs ->
  build_result values = Ok r ->
  rfAmbulatoire (valeursPredictions r) = pourcentage r.
Proof.
  intros Hd Hp Hs Ho Hc Hr.
  assert (Hfirst : first_summary (prediction d) = Some s).
  { unfold first_summary. rewrite Hp, filter_cons, decide_True by exact Hs. reflexivity. }
  rewrite (build_result_shape values d rest s p1 p2 p3 p4 p5 more s o c cs Hd Hp Hfirst Ho Hc) in Hr.
  injection Hr as <-. reflexivity.
Qed.

(** ** The contract of the mapper (spec, section 4.1)

    Abstractly a prediction is a probability per model and outcome class,
    a headline probability and an outcome code.  The service sends it in a
    documented order: for each model in turn its ambulatory then its
    hospitalisation entry, then the summary entry. *)

Inductive model := RandomForest | NeuralNetwork | GradientBoost.
Inductive outcome_class := Ambulatory | Hospitalised.

Definition models : list model := [RandomForest; NeuralNetwork; GradientBoost].

Record Assessment := {
  a_display : JSString.t;
  a_reference : JSString.t;
  a_tag : model -> outcome_class -> JSString.t;
  a_prob : model -> outcome_class -> Number.t;
  a_summary_prob : Number.t;
  a_code : JSString.t;
}.

Definition percent (p : Number.t) : Number.t :=
  Number.math_round (Number.mul p (Number.of_Z 100%Z)).

Definition model_entry (a : Assessment) (m : model) (o : outcome_class) : Prediction :=
  {| rationale := a_tag a m o; probabilityDecimal := a_prob a m o; outcome := None |}.

Definition summary_entry (a : Assessment) : Prediction :=
  {| rationale := JSString.u "summary"; probabilityDecimal := a_summary_prob a;
     outcome := Some {| coding := [ {| code := a_code a |} ] |} |}.

Definition encode (a : Assessment) : FHIRData :=
  {| data := [ {| subject := {| display := a_display a; reference := a_reference a |};
                  prediction := flat_map (fun m => [model_entry a m Ambulatory;
                                                   model_entry a m Hospitalised]) models
                                ++ [summary_entry a] |} ] |}.

(** The percentage of a model and class in the view. *)
Definition valeur (v : ValeursPredictions) (m : model) (o : outcome_class) : Number.t :=
  match m, o with
  | RandomForest, Ambulatory => rfAmbulatoire v
  | RandomForest, Hospitalised => rfHospitalise v
  | NeuralNetwork, Ambulatory => nnAmbulatoire v
  | NeuralNetwork, Hospitalised => nnHospitalise v
  | GradientBoost, Ambulatory => gbtAmbulatoire v
  | GradientBoost, Hospitalised => gbtHospitalise v
  end.

(** The chart series the spec promises for a class: one percentage per
    model, in the order of the labels. *)
Definition series (a : Assessment) (o : outcome_class) : list Number.t :=
  map (fun m => percent (a_prob a m o)) models.

Lemma first_summary_encode (a : Assessment) :
  (forall m o, a_tag a m o <> JSString.u "summary") ->
  first_summary (prediction (Fhir.Build_Datum
     {| display := a_display a; reference := a_reference a |}
     (flat_map (fun m => [model_entry a m Ambulatory; model_entry a m Hospitalised]) models
      ++ [summary_entry a]))) = Some (summary_entry a).
Proof.
  intros Htag. unfold first_summary. simpl.
  rewrite !filter_cons, !decide_False by apply Htag.
  rewrite decide_True by reflexivity. reflexivity.
Qed.

(** C2. Refinement: on an envelope in the documented order whose per-model
    entries are not tagged ["summary"], the callback run on an empty list
    pushes one entry whose six percentages are [Math.round(p*100)] of the
    right model and class, whose headline and outcome are the summary's,
    and charts for each class the series of the three models. *)
Theorem mapper_refines (a : Assessment) (cd : list ChartDataSets) :
  (forall m o, a_tag a m o <> JSString.u "summary") ->
  exists r,
    on_values (encode a) {| predictionResult := []; chartsData := cd |} =
      Ok {| predictionResult := [r]; chartsData := charts_of (valeursPredictions r) |} /\
    (forall m o, valeur (valeursPredictions r) m o = percent (a_prob a m o)) /\
    pourcentage r = percent (a_summary_prob a) /\
    etatPrediction r = a_code a /\ nomPatient r = a_display a /\
    map chart_data (charts_of (valeursPredictions r)) = [series a Ambulatory; series a Hospitalised].
Proof.
  intros Htag.
  erewrite (on_values_push _ _ _ (build_result_shape (encode a) _ [] _ _ _ _ _ _ [summary_entry a]
              (summary_entry a) _ _ [] eq_refl eq_refl (first_summary_encode a Htag) eq_refl eq_refl)).
  eexists. split; [reflexivity|].
  split; [intros [] []; reflexivity|]. repeat split.
Qed.

(** ** Concrete envelopes *)

(** A per-model entry as the service sends it, with its probability given
    as the JSON decimal literal. *)
Definition tagged (tag prob : string) : Prediction :=
  {| rationale := JSString.u tag; probabilityDecimal := JSString.to_number (JSString.u prob);
     outcome := None |}.

(** The spec's example (section 8): probabilities
    [0.81, 0.19, 0.55, 0.45, 0.63, 0.37] and a summary of [0.72]. *)
Definition example_assessment : Assessment := {|
  a_display := JSString.u "Jean Dupont";
  a_reference := JSString.u "4242";
  a_tag := fun m _ => JSString.u (match m with RandomForest => "rf" | NeuralNetwork => "nn"
                                              | GradientBoost => "gbt" end);
  a_prob := fun m o => JSString.to_number (JSString.u
     match m, o with
     | RandomForest, Ambulatory => "0.81" | RandomForest, Hospitalised => "0.19"
     | NeuralNetwork, Ambulatory => "0.55" | NeuralNetwork, Hospitalised => "0.45"
     | GradientBoost, Ambulatory => "0.63" | GradientBoost, Hospitalised => "0.37"
     end);
  a_summary_prob := JSString.to_number (JSString.u "0.72");
  a_code := JSString.u "ambulatoire";
|}.

Definition empty_display : Display := {| predictionResult := []; chartsData := [] |}.

(** The chart series a successful run displays. *)
Definition displayed_series (t : throws Display) : list (list Number.t) :=
  match t with Ok st => map chart_data (chartsData st) | Throw _ => [] end.



(** ** Percentages of decimal probabilities

    The service writes each probability as a JSON number; [HttpClient]
    parses it with [JSON.parse], which rounds the decimal literal to the
    nearest binary64 number exactly as [Number] does.  [decimal_literal p k]
    is the literal of [k / 10^p] with [p] decimals (["0.81"], ["1.00"]). *)
Definition decimal_literal (places : nat) (k : Z) : JSString.t :=
  let ds := JSString.of_int k in
  let ds := repeat 48%Z (S places - length ds) ++ ds in
  take (length ds - places) ds ++ JSString.u "." ++ drop (length ds - places) ds.

Definition entry_of_literal (s : JSString.t) : Prediction :=
  {| rationale := JSString.u "rf"; probabilityDecimal := JSString.to_number s;
     outcome := None |}.

(** C22. Every probability the service writes with two decimals, [0.00] to
    [1.00], is displayed as exactly its number of hundredths: binary64
    rounding never moves [Math.round(p * 100)] off the intended percentage
    there. *)
Theorem pct_two_decimals (k : Z) :
  (0 <= k <= 100)%Z -> pct (entry_of_literal (decimal_literal 2 k)) = Number.of_Z k.
Proof. intros Hk. check_range k 0%Z 101%Z. Qed.

(** C23. Among the 1001 probabilities written with three decimals, the
    displayed percentage is the decimal one rounded half up, except for
    exactly [0.145], [0.285], [0.565] and [0.575], which are displayed one
    less (their binary64 product with 100 falls just below the half). *)
Theorem pct_three_decimals (k : Z) :
  (0 <= k <= 1000)%Z ->
  pct (entry_of_literal (decimal_literal 3 k)) =
    Number.of_Z ((k + 5) / 10 - if decide (k ∈ [145; 285; 565; 575]%Z) then 1 else 0)%Z.
Proof. intros Hk. check_range k 0%Z 1001%Z. Qed.

(** C25. Whatever finite probability in [0, 1] the service sends, the
    displayed percentage [Math.round(p * 100)] is a finite integral number
    between 0 and 100: the binary64 product never leaves [0, 100] and is
    never NaN or infinite. *)
Theorem pct_range (p : Prediction) :
  Number.is_finite (probabilityDecimal p) = true ->
  (0 <= Number.fval (probabilityDecimal p) <= 1)%Q ->
  Number.is_finite (pct p) = true /\
  exists n, (0 <= n <= 100)%Z /\ Number.fval (pct p) == inject_Z n.
Proof.
  intros Hf Hb. apply Rounding.math_round_range; [|lia].
  exact (Rounding.mul_percent _ Hf Hb).
Qed.

(** ** Witnesses *)

Definition envelope_of (ps : list Prediction) : FHIRData :=
  {| data := [ {| subject := {| display := JSString.u "Jean Dupont";
                                reference := JSString.u "4242" |};
                  prediction := ps |} ] |}.

Lemma build_result_spec_witness : exists r, build_result (encode example_assessment) = Ok r.
Proof.
  eexists.
  eapply (build_result_spec _ _ [] _ _ _ _ _ _ [summary_entry example_assessment]
           (summary_entry example_assessment)
           {| coding := [ {| code := a_code example_assessment |} ] |}
           {| code := a_code example_assessment |} []); reflexivity.
Defined.

Lemma on_values_ok_witness :
  exists st, on_values (encode example_assessment) empty_display = Ok st.
Proof. eexists. apply on_values_ok. reflexivity. Defined.


Lemma build_result_no_datum_witness :
  build_result {| data := [] |} = Throw (TypeError JSundefined "subject").
Proof. apply build_result_no_datum. reflexivity. Defined.

Lemma build_result_no_summary_witness :
  build_result (envelope_of [tagged "rf" "0.81"; tagged "rf" "0.19"]) =
    Throw (TypeError JSundefined "probabilityDecimal").
Proof.
  eapply build_result_no_summary; [reflexivity|].
  repeat constructor; intros H; discriminate H.
Defined.

Lemma build_result_short_witness :
  build_result (envelope_of [tagged "rf" "0.81"; tagged "rf" "0.19";
                             summary_entry example_assessment]) =
    Throw (TypeError JSundefined "probabilityDecimal").
Proof.
  eapply (build_result_short _ _ [] (summary_entry example_assessment)
            {| coding := [ {| code := a_code example_assessment |} ] |}
            {| code := a_code example_assessment |} []); try reflexivity.
  simpl. lia.
Defined.

Lemma mapper_refines_witness :
  exists r,
    on_values (encode example_assessment) empty_display =
      Ok {| predictionResult := [r]; chartsData := charts_of (valeursPredictions r) |} /\
    (forall m o, valeur (valeursPredictions r) m o = percent (a_prob example_assessment m o)) /\
    pourcentage r = percent (a_summary_prob example_assessment) /\
    etatPrediction r = a_code example_assessment /\
    nomPatient r = a_display example_assessment /\
    map chart_data (charts_of (valeursPredictions r)) =
      [series example_assessment Ambulatory; series example_assessment Hospitalised].
Proof. apply mapper_refines. intros [] [] H; discriminate H. Defined.

(** ** Percentages and identifiers *)

(** C11. [Math.round(p * 100)] is [floor(x + 1/2)] of the binary64 product
    [x = p * 100]: the nearest integer, halves rounded up. *)
Theorem pct_spec (p : Prediction) :
  Number.valid (Number.mul (probabilityDecimal p) (Number.of_Z 100%Z)) = true ->
  (Number.fval (pct p) ==
     inject_Z (Qfloor (Number.fval (Number.mul (probabilityDecimal p) (Number.of_Z 100%Z)) + (1 # 2))))%Q.
Proof. intros H. apply Number.math_round_spec, H. Qed.

Lemma pct_spec_witness :
  (Number.fval (pct (tagged "rf" "0.145")) ==
     inject_Z (Qfloor (Number.fval (Number.mul (probabilityDecimal (tagged "rf" "0.145"))
                                               (Number.of_Z 100%Z)) + (1 # 2))))%Q.
Proof. apply pct_spec. vm_compute. reflexivity. Defined.

(** The entry's [idPatient] is [Number] of the first datum's reference
    (line 150). *)
Lemma build_result_idPatient_eq (values : FHIRData) (d : Datum) (rest : list Datum)
    (r : PredictionResult) :
  data values = d :: rest -> build_result values = Ok r ->
  idPatient r = JSString.to_number (reference (subject d)).
Proof.
  intros Hd Hr. unfold build_result in Hr. rewrite Hd in Hr. simpl in Hr.
  repeat match type of Hr with
         | context [match ?x with Ok _ => _ | Throw _ => _ end] => destruct x; [|discriminate]
         end.
  injection Hr as <-. reflexivity.
Qed.

(** C14. When the FHIR reference is the decimal rendering of an integer [n],
    the entry's [idPatient] is the number [n]: [Number] inverts the
    rendering (ECMA-262 [StringToNumber] on [ToString]). *)
Theorem build_result_idPatient (values : FHIRData) (d : Datum) (rest : list Datum)
    (r : PredictionResult) (n : Z) :
  data values = d :: rest -> reference (subject d) = JSString.of_int n ->
  build_result values = Ok r -> idPatient r = Number.of_Z n.
Proof.
  intros Hd Href Hr. rewrite (build_result_idPatient_eq _ _ _ _ Hd Hr), Href.
  apply JSString.to_number_of_int.
Qed.

Lemma build_result_idPatient_witness :
  exists r, build_result (encode example_assessment) = Ok r /\ idPatient r = Number.of_Z 4242%Z.
Proof.
  eexists. split; [reflexivity|].
  eapply (build_result_idPatient (encode example_assessment) _ [] _ 4242%Z);
    reflexivity.
Defined.

(** C15. A FHIR reference in its usual form ["Patient/<id>"] is not a
    numeric literal, whatever the identifier: the entry's [idPatient] is
    NaN.  A reference of white space only (the empty string included)
    gives [0]. *)
Theorem idPatient_of_fhir_reference (values : FHIRData) (d : Datum) (rest : list Datum)
    (r : PredictionResult) :
  data values = d :: rest -> build_result values = Ok r ->
  (forall id, reference (subject d) = JSString.u "Patient/" ++ id -> idPatient r = S754_nan) /\
  (forallb JSString.is_ws (reference (subject d)) = true -> idPatient r = Number.of_Z 0%Z).
Proof.
  intros Hd Hr. rewrite (build_result_idPatient_eq _ _ _ _ Hd Hr). split.
  - intros id ->. apply JSString.to_number_not_literal; vm_compute; congruence.
  - apply JSString.to_number_blank.
Qed.

Lemma idPatient_of_fhir_reference_witness :
  exists r, build_result (encode {| a_display := a_display example_assessment;
                                   a_reference := JSString.u "Patient/4242";
                                   a_tag := a_tag example_assessment;
                                   a_prob := a_prob example_assessment;
                                   a_summary_prob := a_summary_prob example_assessment;
                                   a_code := a_code example_assessment |}) = Ok r /\
            idPatient r = S754_nan.
Proof.
  lazymatch goal with
  | |- exists r, build_result ?v = Ok r /\ _ =>
      eexists; split; [reflexivity|];
      exact (proj1 (idPatient_of_fhir_reference v _ [] _ eq_refl eq_refl) (JSString.u "4242") eq_refl)
  end.
Defined.

Lemma pct_two_decimals_witness :
  decimal_literal 2 81 = JSString.u "0.81" /\
  pct (entry_of_literal (decimal_literal 2 81)) = Number.of_Z 81%Z.
Proof. split; [reflexivity | apply pct_two_decimals; lia]. Defined.

Lemma pct_three_decimals_witness :
  decimal_literal 3 565 = JSString.u "0.565" /\
  pct (entry_of_literal (decimal_literal 3 565)) = Number.of_Z 56%Z.
Proof. split; [reflexivity | apply (pct_three_decimals 565); lia]. Defined.

(** An envelope whose summary comes first. *)
Definition summary_first_envelope : FHIRData :=
  envelope_of [summary_entry example_assessment; tagged "rf" "0.19";
               tagged "nn" "0.55"; tagged "nn" "0.45";
               tagged "gbt" "0.63"; tagged "gbt" "0.37"].

Lemma build_result_summary_counted_witness :
  exists r, build_result summary_first_envelope = Ok r /\
            rfAmbulatoire (valeursPredictions r) = pourcentage r.
Proof.
  eexists. split; [reflexivity|].
  eapply (build_result_summary_counted summary_first_envelope _ [] _ _ _ _ _ _ [] _ _ []);
    reflexivity.
Defined.

Lemma pct_range_witness :
  Number.is_finite (pct (tagged "rf" "0.81")) = true /\
  exists n, (0 <= n <= 100)%Z /\ Number.fval (pct (tagged "rf" "0.81")) == inject_Z n.
Proof.
  apply pct_range; [vm_compute; reflexivity|].
  split; apply Qle_bool_imp_le; vm_compute; reflexivity.
Defined.

Lemma build_result_no_coding_witness :
  build_result (envelope_of [tagged "summary" "0.72"]) = Throw (TypeError JSundefined "coding").
Proof.
  apply (proj1 (build_result_no_coding (envelope_of [tagged "summary" "0.72"]) _ []
    (tagged "summary" "0.72") eq_refl ltac:(reflexivity))).
  reflexivity.
Defined.

End Mapper.
