(* ===== verification/Chart.v ===== *)
(** * The bar chart of the page

    [home.page.ts] lines 76-98 configure the ng2-charts bar chart the
    template draws: the categories [chartLabels] (one per model), the
    options [chartOptions], one colour per data series [chartColors], the
    type [chartType], the legend flag [chartLegend] and the series
    [chartsData].  The first five are constant fields: no method assigns
    them.  The chart directive pairs the [i]-th series with the [i]-th
    colour and the [j]-th value of a series with the [j]-th label, so the
    page draws a coherent chart exactly when the series match the labels
    and the colours ([chart_wf]).  The series are those [Mapper.charts_of]
    builds, and the page keeps them coherent in every reachable state. *)

From Stdlib Require Import ZArith.
From S2P Require Import Prelude Binary64 JSString Fhir Mapper.

Module Chart.

Import Fhir.

(** Line 76: the categories of the chart, one per model. *)
Definition chartLabels : list string :=
  ["Random Forest"; "Neuronal Network"; "Gradient Boost Tree"].

(** [scales: { xAxes: [{}], yAxes: [{}] }]: one axis of each kind, with the
    default settings (an empty object). *)
Record Scales := { xAxes : list unit; yAxes : list unit }.

(** [plugins: { datalabels: { anchor, align } }] *)
Record DataLabels := { anchor : string; align : string }.

Record ChartOptions := {
  responsive : bool;
  scales : Scales;
  datalabels : DataLabels;
}.

(** Lines 78-87 *)
Definition chartOptions : ChartOptions := {|
  responsive := true;
  scales := {| xAxes := [tt]; yAxes := [tt] |};
  datalabels := {| anchor := "end"; align := "end" |};
|}.

(** A [Color] of ng2-charts, with the one field the page sets. *)
Record Color := { backgroundColor : string }.

(** Lines 88-93: the colour of the ambulatory series, then that of the
    hospitalisation series. *)
Definition chartColors : list Color :=
  [ {| backgroundColor := "#3DADF2" |}; {| backgroundColor := "#020F59" |} ].

(** Line 95 *)
Definition chartType : string := "bar".

(** Line 96 *)
Definition chartLegend : bool := true.

(** The series the page draws are coherent: none yet, or one per colour,
    each with one value per category, labelled as the colours' comments
    say (ambulatory care first). *)
Definition chart_wf (cd : list ChartDataSets) : Prop :=
  cd = [] \/
  (length cd = length chartColors /\
   Forall (fun s => length (chart_data s) = length chartLabels) cd /\
   map label cd = [JSString.u "Soins Ambulatoire"; JSString.u "Hospitalisation"]).

End Chart.
