(* ===== verification/DateModel.v ===== *)
(** * The date of the prediction

    [home.page.ts] lines 23 and 45-47 take [new Date()] and read
    [getDay()], [getMonth() + 1] and [getFullYear()]; line 55 joins them
    into [predictionDate] with a template literal.  A [Date] holds a time
    value in milliseconds; its getters apply the local time-zone offset and
    the calendar functions of ECMA-262 (21.4.1): [Day], [WeekDay],
    [DayFromYear], [YearFromTime], [MonthFromTime], [DateFromTime].
    [YearFromTime] is specified as "the largest year whose first day is not
    after the time"; it is computed here by an estimate and one
    correction, and [YearFromDay_spec] proves the two agree. *)

From Stdlib Require Import ZArith Lia.
From S2P Require Import Prelude Binary64 JSString.

Local Open Scope Z_scope.

Module DateModel.

Definition msPerDay : Z := 86400000.

(** [Day(t)] *)
Definition Day (t : Z) : Z := t / msPerDay.

(** [WeekDay(t)]: 0 is Sunday. *)
Definition WeekDay (t : Z) : Z := (Day t + 4) mod 7.

Definition DaysInYear (y : Z) : Z :=
  if negb (y mod 4 =? 0) then 365
  else if negb (y mod 100 =? 0) then 366
  else if negb (y mod 400 =? 0) then 365
  else 366.

Definition DayFromYear (y : Z) : Z :=
  365 * (y - 1970) + (y - 1969) / 4 - (y - 1901) / 100 + (y - 1601) / 400.

(** 400 Gregorian years have 146097 days. *)
Definition year_estimate (d : Z) : Z := 1970 + (d * 400) / 146097.

(** The year of day number [d]. *)
Definition YearFromDay (d : Z) : Z :=
  let y0 := year_estimate d in
  if d <? DayFromYear y0 then y0 - 1
  else if DayFromYear (y0 + 1) <=? d then y0 + 1 else y0.

Definition YearFromTime (t : Z) : Z := YearFromDay (Day t).

Definition InLeapYear (t : Z) : Z :=
  if DaysInYear (YearFromTime t) =? 366 then 1 else 0.

Definition DayWithinYear (t : Z) : Z := Day t - DayFromYear (YearFromTime t).

(** [MonthFromTime(t)], 0 for January, from the day within the year [d]
    and the leap-year flag [l]. *)
Definition month_in_year (d l : Z) : Z :=
  if d <? 31 then 0
  else if d <? 59 + l then 1
  else if d <? 90 + l then 2
  else if d <? 120 + l then 3
  else if d <? 151 + l then 4
  else if d <? 181 + l then 5
  else if d <? 212 + l then 6
  else if d <? 243 + l then 7
  else if d <? 273 + l then 8
  else if d <? 304 + l then 9
  else if d <? 334 + l then 10
  else 11.

(** [DateFromTime(t)]: the day of the month, from 1. *)
Definition date_in_month (d l : Z) : Z :=
  match month_in_year d l with
  | 0 => d + 1
  | 1 => d - 30
  | 2 => d - 58 - l
  | 3 => d - 89 - l
  | 4 => d - 119 - l
  | 5 => d - 150 - l
  | 6 => d - 180 - l
  | 7 => d - 211 - l
  | 8 => d - 242 - l
  | 9 => d - 272 - l
  | 10 => d - 303 - l
  | _ => d - 333 - l
  end.

Definition MonthFromTime (t : Z) : Z := month_in_year (DayWithinYear t) (InLeapYear t).
Definition DateFromTime (t : Z) : Z := date_in_month (DayWithinYear t) (InLeapYear t).

(** A [Date] object: its time value, and the offset of the local time zone
    at that time ([LocalTime(t) = t + offset]). *)
Record Date := { time_value : Z; local_offset : Z }.

Definition LocalTime (dt : Date) : Z := time_value dt + local_offset dt.

Definition getDay (dt : Date) : Z := WeekDay (LocalTime dt).
Definition getDate (dt : Date) : Z := DateFromTime (LocalTime dt).
Definition getMonth (dt : Date) : Z := MonthFromTime (LocalTime dt).
Definition getFullYear (dt : Date) : Z := YearFromTime (LocalTime dt).

(** Lines 45-47 and 55: the fields [day], [month], [year] and the string
    [`${this.day}/${this.month}/${this.year}`]. *)
Definition day (dt : Date) : Z := getDay dt.
Definition month (dt : Date) : Z := getMonth dt + 1.
Definition year (dt : Date) : Z := getFullYear dt.

Definition predictionDate (dt : Date) : JSString.t :=
  JSString.of_int (day dt) ++ JSString.u "/" ++ JSString.of_int (month dt) ++
  JSString.u "/" ++ JSString.of_int (year dt).

(** ** Calendar lemmas *)

Lemma DayFromYear_approx (y : Z) :
  146097 * (y - 1970) - 800 <= 400 * DayFromYear y <= 146097 * (y - 1970) + 800.
Proof. unfold DayFromYear. Z.div_mod_to_equations. lia. Qed.

Lemma DayFromYear_succ (y : Z) :
  DayFromYear (y + 1) - DayFromYear y = DaysInYear y.
Proof.
  unfold DayFromYear, DaysInYear.
  destruct (Z.eqb_spec (y mod 4) 0), (Z.eqb_spec (y mod 100) 0), (Z.eqb_spec (y mod 400) 0);
    simpl; Z.div_mod_to_equations; lia.
Qed.

Lemma DaysInYear_range (y : Z) : 365 <= DaysInYear y <= 366.
Proof. unfold DaysInYear. repeat case_match; lia. Qed.

(** [YearFromTime] is the year ECMA-262 specifies: the largest [y] with
    [DayFromYear y <= Day t]; in particular day [d] lies within its year. *)
Theorem YearFromDay_spec (d : Z) :
  DayFromYear (YearFromDay d) <= d < DayFromYear (YearFromDay d + 1) /\
  (forall y, DayFromYear y <= d -> y <= YearFromDay d).
Proof.
  unfold YearFromDay. set (y0 := year_estimate d).
  assert (Hy : 146097 * (y0 - 1970) <= 400 * d < 146097 * (y0 - 1970) + 146097).
  { unfold y0, year_estimate. Z.div_mod_to_equations. lia. }
  pose proof (DayFromYear_approx y0). pose proof (DayFromYear_approx (y0 + 1)).
  pose proof (DayFromYear_approx (y0 - 1)). pose proof (DayFromYear_approx (y0 + 2)).
  pose proof (DayFromYear_succ (y0 - 1)). pose proof (DaysInYear_range (y0 - 1)).
  replace (y0 - 1 + 1) with y0 in * by lia.
  assert (Hmono : forall y, DayFromYear y <= d -> y <= y0 + 1).
  { intros y Hyd. pose proof (DayFromYear_approx y). lia. }
  destruct (Z.ltb_spec d (DayFromYear y0)).
  - replace (y0 - 1 + 1) with y0 by lia. split; [lia|].
    intros y Hyd. destruct (Z.eq_dec y y0) as [->|]; [lia|].
    pose proof (DayFromYear_approx y). lia.
  - destruct (Z.leb_spec (DayFromYear (y0 + 1)) d).
    + replace (y0 + 1 + 1) with (y0 + 2) by lia. split; [lia | exact Hmono].
    + split; [lia|]. intros y Hyd. destruct (Z.eq_dec y (y0 + 1)) as [->|]; [lia|].
      pose proof (Hmono y Hyd). lia.
Qed.

Lemma DayWithinYear_range (t : Z) :
  0 <= DayWithinYear t < 365 + InLeapYear t /\ 0 <= InLeapYear t <= 1.
Proof.
  unfold DayWithinYear, InLeapYear, YearFromTime.
  destruct (YearFromDay_spec (Day t)) as [[Hlo Hhi] _].
  pose proof (DayFromYear_succ (YearFromDay (Day t))) as Hs.
  pose proof (DaysInYear_range (YearFromDay (Day t))).
  destruct (Z.eqb_spec (DaysInYear (YearFromDay (Day t))) 366); lia.
Qed.

Lemma month_date_range (d l : Z) :
  0 <= d < 365 + l -> 0 <= l <= 1 ->
  0 <= month_in_year d l <= 11 /\ 1 <= date_in_month d l <= 31.
Proof.
  intros Hd Hl. unfold date_in_month, month_in_year.
  repeat match goal with |- context [?a <? ?b] => destruct (Z.ltb_spec a b) end;
    lia.
Qed.

(** The fields of any date are in range. *)
Lemma date_fields_bounds (dt : Date) :
  1 <= month dt <= 12 /\ 1 <= getDate dt <= 31 /\ 0 <= day dt <= 6.
Proof.
  unfold month, getMonth, getDate, day, getDay, MonthFromTime, DateFromTime, WeekDay.
  destruct (DayWithinYear_range (LocalTime dt)) as [Hd Hl].
  destruct (month_date_range _ _ Hd Hl). pose proof (Z.mod_pos_bound (Day (LocalTime dt) + 4) 7).
  lia.
Qed.

(** C13. Every date the page can take gives a month in [1, 12] and a day of
    the month in [1, 31] (the calendar functions are total and in range
    on every time value and time-zone offset). *)
Theorem date_fields_range (dt : Date) :
  1 <= month dt <= 12 /\ 1 <= getDate dt <= 31 /\ 0 <= day dt <= 6.
Proof. exact (date_fields_bounds dt). Qed.


(** A date in the page's local time: Monday 9 November 2026, 13:00 at
    UTC+1. *)
Definition nov9_2026 : Date := {| time_value := 1794225600000; local_offset := 3600000 |}.


(** C12. The field [year] (line 47, [getFullYear()]) is the year ECMA-262
    specifies for the local time: the largest [y] whose first day is not
    after the day of the date. *)
Theorem year_spec (dt : Date) :
  DayFromYear (year dt) <= Day (LocalTime dt) < DayFromYear (year dt + 1) /\
  (forall y, DayFromYear y <= Day (LocalTime dt) -> y <= year dt).
Proof. apply YearFromDay_spec. Qed.


(** The fields of the date contain no slash. *)
Lemma of_int_no_slash (n : Z) : Forall (fun c => c <> 47) (JSString.of_int n).
Proof. eapply Forall_impl; [apply JSString.of_int_chars | intros c Hc; simpl in Hc; lia]. Qed.

(** C31. Round trip of line 55: splitting [predictionDate] at its slashes
    and reading each part with [Number] gives back [day], [month] and
    [year], for every date. *)
Theorem predictionDate_roundtrip (dt : Date) :
  map JSString.to_number (JSString.split 47 (predictionDate dt)) =
    [Number.of_Z (day dt); Number.of_Z (month dt); Number.of_Z (year dt)].
Proof.
  unfold predictionDate. change (JSString.u "/") with [47]. cbn [app].
  rewrite !JSString.split_sep, JSString.split_last by apply of_int_no_slash.
  simpl. rewrite !JSString.to_number_of_int. reflexivity.
Qed.

End DateModel.
