(* ===== verification/Form.v ===== *)
(** * The form [covidForm]

    [home.page.ts] lines 66-73 build a [FormGroup] of six controls with
    their initial values and validators.  The validators are Angular's
    ([@angular/forms], [Validators]): [required] rejects exactly the empty
    values ([null], [undefined], a string or an array of length 0);
    [pattern(p)] accepts the empty values and otherwise tests the value
    against [^p$].  Both patterns of the page are a character class under
    [*], so the regular expression holds of a string exactly when each of
    its UTF-16 code units is in the class. *)

From Stdlib Require Import ZArith Lia.
From S2P Require Import Prelude Binary64 JSString.

Local Open Scope Z_scope.

Module Form.

(** The value of a control: text inputs hold strings, the multiple
    selects hold arrays of strings, an untouched control may hold [null]. *)
Inductive ControlValue :=
  | CVString (s : JSString.t)
  | CVArray (l : list JSString.t)
  | CVNull.

(** [isEmptyInputValue] *)
Definition is_empty_input (v : ControlValue) : bool :=
  match v with
  | CVNull => true
  | CVString s => bool_decide (s = [])
  | CVArray l => bool_decide (l = [])
  end.

(** [Validators.required]: [true] when the control is valid. *)
Definition required (v : ControlValue) : bool := negb (is_empty_input v).

(** [ToString] of a control value, as [RegExp.prototype.test] applies it:
    an array is joined with commas. *)
Definition value_string (v : ControlValue) : JSString.t :=
  match v with
  | CVString s => s
  | CVArray l => JSString.join (JSString.u ",") l
  | CVNull => JSString.u "null"
  end.

(** [Validators.pattern('[class]*')]. *)
Definition pattern (cls : Z -> bool) (v : ControlValue) : bool :=
  is_empty_input v || forallb cls (value_string v).

Definition in_range (lo hi c : Z) : bool := (lo <=? c) && (c <=? hi).

(** The class [[a-zA-ZÀ-ÖØ-öø-ÿ-' ]] of lines 67-68: two ASCII ranges,
    three Latin-1 ranges (U+00C0-U+00D6, U+00D8-U+00F6, U+00F8-U+00FF),
    then a literal [-], an apostrophe and a space. *)
Definition name_class (c : Z) : bool :=
  in_range 97 122 c || in_range 65 90 c || in_range 192 214 c ||
  in_range 216 246 c || in_range 248 255 c || (c =? 45) || (c =? 39) || (c =? 32).

(** The class [[0-9]] of line 69. *)
Definition digit_class (c : Z) : bool := in_range 48 57 c.

(** The value of [covidForm]. *)
Record FormValue := {
  nom : ControlValue;
  prenom : ControlValue;
  age : ControlValue;
  sexe : ControlValue;
  facteurDeRisque : ControlValue;
  symptomes : ControlValue;
}.

(** Lines 66-73: the initial values. *)
Definition initial_form : FormValue := {|
  nom := CVString [];
  prenom := CVString [];
  age := CVString [];
  sexe := CVString [];
  facteurDeRisque := CVArray [[]];
  symptomes := CVArray [[]];
|}.

(** Lines 67-72: the form is valid when every control is. *)
Definition form_valid (f : FormValue) : bool :=
  pattern name_class (nom f) && pattern name_class (prenom f) &&
  pattern digit_class (age f) && required (sexe f) &&
  required (facteurDeRisque f) && required (symptomes f).

(** ** What the validators accept *)

(** A letter of the Latin-1 alphabet the name pattern admits: ASCII
    letters and U+00C0-U+00FF except the signs [×] (U+00D7) and [÷]
    (U+00F7). *)
Definition latin_letter (c : Z) : Prop :=
  (97 <= c <= 122) \/ (65 <= c <= 90) \/ (192 <= c <= 255 /\ c <> 215 /\ c <> 247).

Lemma name_class_spec (c : Z) :
  name_class c = true <-> latin_letter c \/ c = 45 \/ c = 39 \/ c = 32.
Proof.
  unfold name_class, in_range, latin_letter.
  rewrite !orb_true_iff, !andb_true_iff, !Z.leb_le, !Z.eqb_eq. lia.
Qed.

Lemma forallb_Forall_iff {A} (f : A -> bool) (l : list A) :
  forallb f l = true <-> Forall (fun x => f x = true) l.
Proof. rewrite forallb_forall, List.Forall_forall. reflexivity. Qed.

(** C21. The name validator of lines 67-68 accepts a string exactly when each
    code unit is a Latin-1 letter, a hyphen, an apostrophe or a space; in
    particular it accepts the empty string and rejects digits, [×] and
    [÷]. *)
Theorem name_pattern_spec (s : JSString.t) :
  pattern name_class (CVString s) = true <->
  Forall (fun c => latin_letter c \/ c = 45 \/ c = 39 \/ c = 32) s.
Proof.
  unfold pattern, is_empty_input, value_string.
  rewrite orb_true_iff, forallb_Forall_iff.
  split.
  - intros [He|Hall].
    + apply bool_decide_eq_true in He. subst. constructor.
    + eapply Forall_impl; [exact Hall|]. intros c Hc. apply name_class_spec, Hc.
  - intros Hall. right. eapply Forall_impl; [exact Hall|].
    intros c Hc. apply name_class_spec, Hc.
Qed.

(** C20. [Validators.required] does not see that no risk factor and no symptom
    was chosen: the initial value [['']] of both multiple selects is a
    non-empty array, so once a sex is chosen the untouched form is valid;
    before, only [sexe] makes it invalid. *)
Theorem initial_form_validity (s : JSString.t) :
  s <> [] ->
  form_valid initial_form = false /\
  form_valid {| nom := nom initial_form; prenom := prenom initial_form;
                age := age initial_form; sexe := CVString s;
                facteurDeRisque := facteurDeRisque initial_form;
                symptomes := symptomes initial_form |} = true.
Proof.
  intros Hs. split; [reflexivity|].
  unfold form_valid, required. simpl.
  rewrite bool_decide_eq_false_2 by exact Hs. reflexivity.
Qed.

Lemma initial_form_validity_witness :
  JSString.u "1" <> [] /\
  form_valid initial_form = false /\
  form_valid {| nom := nom initial_form; prenom := prenom initial_form;
                age := age initial_form; sexe := CVString (JSString.u "1");
                facteurDeRisque := facteurDeRisque initial_form;
                symptomes := symptomes initial_form |} = true.
Proof. split; [discriminate|]. apply initial_form_validity. discriminate. Defined.

End Form.
