(* ===== verification/HomePage.v ===== *)
(** * The component [HomePage] and its event loop

    [home.page.ts] lines 20-190.  The component's fields are a record
    ([HomePage]); the page also touches the DOM element
    [.container__spinner] (its class list, or nothing when the element is
    absent) and the HTTP requests its subscriptions wait for.  These make
    the [World] a handler runs on.  Each method is a handler of the monad
    [jsM World] of the prelude: a [TypeError] aborts the handler but keeps
    what it had already changed.

    The collaborators of the repository that are not in the sources,
    [PatientService] and [ApiService], are the class [PatientService]
    below: the page only calls [updateDatasPatient] and [createBodyPost],
    and hands their result to [submitForm], whose observable sends the
    request when it is subscribed and later delivers one response.

    The page runs on one event loop.  An event is a user action (init,
    submit, dismiss, edit) or the arrival of the response (or the failure)
    of one pending request; [step] fires one enabled event, and the events
    of several pending requests may arrive in any order. *)

From Stdlib Require Import ZArith QArith Lia Wellfounded Wf_nat.
From Stdlib Require Import Floats.SpecFloat.
From stdpp Require Import gmap.
From S2P Require Import Prelude Binary64 Rounding JSString Fhir Mapper Chart DateModel Form.

Module HomePage.
Import Fhir.

(** [DataPatient] ([src/app/interfaces/dataPatient.interface.ts], not in
    the sources; fields as initialised on lines 49-59). *)
Module Patient.
Record DataPatient := {
  idPatient : Number.t;
  prenom : JSString.t;
  nom : JSString.t;
  age : Number.t;
  predictionDate : JSString.t;
  sexe : Number.t;
  facteurDeRisque : list JSString.t;
  symptomes : list JSString.t;
}.
End Patient.

(** What the page needs of [PatientService] (and of the body type that
    [ApiService.submitForm] posts). *)
Class PatientService := {
  body : Type;
  updateDatasPatient : Patient.DataPatient -> Form.FormValue -> Patient.DataPatient;
  createBodyPost : Patient.DataPatient -> list body;
}.

(** Lines 13-18: the [@Component] metadata Angular uses to instantiate the
    page: its element name, its template and its style sheets. *)
Record ComponentMeta := {
  selector : string;
  templateUrl : string;
  styleUrls : list string;
}.

Definition component_meta : ComponentMeta := {|
  selector := "app-home";
  templateUrl := "home.page.html";
  styleUrls := ["home.page.scss"];
|}.

(** The fields of the component that change or are read. *)
Record HomePage := {
  covidForm : Form.FormValue;
  dateObject : DateModel.Date;
  predictionResult : list PredictionResult;
  chartsData : list ChartDataSets;
  day : Z;
  month : Z;
  year : Z;
  dataPatient : Patient.DataPatient;
}.

(** Lines 26-42: the labels of the risk factors and symptoms, by form
    value (constant fields). *)
Definition risques : list (string * string) :=
  [("fr_diabete", "Diabete"); ("fr_maladie_cardiovasculaire", "Maladie Cardiovasculaire");
   ("fr_asthme", "Asthme"); ("fr_bpco", "BPCO"); ("fr_obese", "Obésité")].

Definition symptomes : list (string * string) :=
  [("symp_fievre", "Fièvre"); ("symp_dyspnee", "Difficultés respiratoires");
   ("symp_myalgies", "Douleurs musculaires"); ("symp_cephalees", "Mal de tête");
   ("symp_toux", "Toux"); ("symp_digestifs", "Troubles digestifs")].

Section Page.
Context `{PS : PatientService}.

(** The page, the spinner element's class list ([None]: no such element)
    and the requests in flight, each with the body it posted. *)
Record World := {
  page : HomePage;
  spinner : option (gset string);
  pending : list (nat * list body);
  next_request : nat;
}.

(** *** Updating fields *)

Definition set_display (d : Mapper.Display) (p : HomePage) : HomePage :=
  {| covidForm := covidForm p; dateObject := dateObject p;
     predictionResult := Mapper.predictionResult d; chartsData := Mapper.chartsData d;
     day := day p; month := month p; year := year p; dataPatient := dataPatient p |}.

Definition display_of (p : HomePage) : Mapper.Display :=
  {| Mapper.predictionResult := predictionResult p; Mapper.chartsData := chartsData p |}.

Definition set_results (l : list PredictionResult) (p : HomePage) : HomePage :=
  set_display {| Mapper.predictionResult := l; Mapper.chartsData := chartsData p |} p.

Definition set_patient (dp : Patient.DataPatient) (p : HomePage) : HomePage :=
  {| covidForm := covidForm p; dateObject := dateObject p;
     predictionResult := predictionResult p; chartsData := chartsData p;
     day := day p; month := month p; year := year p; dataPatient := dp |}.

Definition set_form (f : Form.FormValue) (p : HomePage) : HomePage :=
  {| covidForm := f; dateObject := dateObject p;
     predictionResult := predictionResult p; chartsData := chartsData p;
     day := day p; month := month p; year := year p; dataPatient := dataPatient p |}.

Definition map_page (f : HomePage -> HomePage) (w : World) : World :=
  {| page := f (page w); spinner := spinner w; pending := pending w;
     next_request := next_request w |}.

Definition set_spinner (cl : gset string) (w : World) : World :=
  {| page := page w; spinner := Some cl; pending := pending w;
     next_request := next_request w |}.

(** *** Construction (lines 22-98) *)

(** [new HomePage()] at date [now], with [Math.random()] returning [rnd],
    in a document whose spinner element has class list [dom]. *)
Definition initial_page (now : DateModel.Date) (rnd : Number.t) : HomePage :=
  {| covidForm := Form.initial_form;
     dateObject := now;
     predictionResult := [];
     chartsData := [];
     day := DateModel.day now;
     month := DateModel.month now;
     year := DateModel.year now;
     dataPatient :=
       {| Patient.idPatient := Number.math_floor (Number.mul rnd (Number.of_Z 10000));
          Patient.prenom := [];
          Patient.nom := [];
          Patient.age := Number.of_Z 0;
          Patient.predictionDate := DateModel.predictionDate now;
          Patient.sexe := Number.of_Z 0;
          Patient.facteurDeRisque := [];
          Patient.symptomes := [] |} |}.

Definition initial_world (now : DateModel.Date) (rnd : Number.t)
    (dom : option (gset string)) : World :=
  {| page := initial_page now rnd; spinner := dom; pending := []; next_request := 0 |}.

(** *** Methods *)

(** Lines 100-102: [this.predictionResult.length = 0]. *)
Definition closeMessage : jsM World unit :=
  js_modify (map_page (set_results [])).

(** [document.querySelector('.container__spinner').classList.<op>]: a
    missing element makes the property read throw. *)
Definition update_spinner (f : gset string -> gset string) : jsM World unit :=
  fun w => match spinner w with
           | Some cl => (set_spinner (f cl) w, Ok tt)
           | None => (w, Throw (TypeError JSnull "classList"))
           end.

(** Lines 105-108 *)
Definition toggleSpinner : jsM World unit :=
  update_spinner (fun cl => cl ∖ {["invisible"]}) ;;
  update_spinner (fun cl => {["visible"]} ∪ cl).

(** Lines 111-117: update [dataPatient] from the form and build the body;
    [submitForm] returns a cold observable, so nothing is sent yet. *)
Definition sendDatas : jsM World (list body) :=
  fun w =>
    let dp := updateDatasPatient (dataPatient (page w)) (covidForm (page w)) in
    (map_page (set_patient dp) w, Ok (createBodyPost dp)).

(** [.subscribe(...)]: the request leaves with this body. *)
Definition subscribe (b : list body) : jsM World unit :=
  fun w => ({| page := page w; spinner := spinner w;
               pending := pending w ++ [(next_request w, b)];
               next_request := S (next_request w) |}, Ok tt).

(** Lines 119-186 *)
Definition getPredictionResults : jsM World unit :=
  n ← js_gets (fun w => length (predictionResult (page w)));
  (if decide (n <> 0) then closeMessage else mret tt) ;;
  toggleSpinner ;;
  b ← sendDatas;
  subscribe b.

(** Lines 188-190 *)
Definition ngOnInit : jsM World unit :=
  update_spinner (fun cl => {["invisible"]} ∪ cl).

Definition remove_request (id : nat) (w : World) : World :=
  {| page := page w; spinner := spinner w;
     pending := filter (fun r => r.1 <> id) (pending w);
     next_request := next_request w |}.

(** The response to request [id] arrives: the subscription completes and
    the [map] callback (lines 133-179) runs on the page's fields; the
    subscriber's [next] (line 184) only logs. *)
Definition on_response (id : nat) (v : FHIRData) : jsM World unit :=
  fun w =>
    let w1 := remove_request id w in
    match Mapper.on_values v (display_of (page w1)) with
    | Ok d => (map_page (set_display d) w1, Ok tt)
    | Throw e => (w1, Throw e)
    end.

(** The request fails: the subscriber has no error callback. *)
Definition on_http_error (id : nat) : jsM World unit :=
  fun w => (remove_request id w, Throw HttpError).

(** *** The event loop *)

Inductive event :=
  | Init
  | Submit
  | Close
  | Edit (f : Form.FormValue)
  | Response (id : nat) (v : FHIRData)
  | Failure (id : nat).

Definition handler (ev : event) : jsM World unit :=
  match ev with
  | Init => ngOnInit
  | Submit => getPredictionResults
  | Close => closeMessage
  | Edit f => js_modify (map_page (set_form f))
  | Response id v => on_response id v
  | Failure id => on_http_error id
  end.

(** A response or failure can only come for a request in flight. *)
Definition enabled (ev : event) (w : World) : Prop :=
  match ev with
  | Response id _ | Failure id => id ∈ (pending w).*1
  | _ => True
  end.

Inductive step : World -> event -> World -> Prop :=
  | step_fire w ev : enabled ev w -> step w ev (handler ev w).1.

Inductive reachable : World -> Prop :=
  | reachable_init now rnd dom : reachable (initial_world now rnd dom)
  | reachable_step w ev w' : reachable w -> step w ev w' -> reachable w'.

(** A run of events in order, each on the state the previous one left. *)
Fixpoint run (evs : list event) (w : World) : World :=
  match evs with
  | [] => w
  | ev :: evs' => run evs' (handler ev w).1
  end.

(** ** Handler lemmas *)

Ltac js_unfold :=
  unfold mbind, jsM_bind, mret, jsM_ret, js_gets, js_modify, js_raise in *.

Lemma update_spinner_page f w : page (update_spinner f w).1 = page w.
Proof. unfold update_spinner. destruct (spinner w); reflexivity. Qed.

Lemma toggleSpinner_some w cl :
  spinner w = Some cl ->
  toggleSpinner w = (set_spinner ({["visible"]} ∪ (cl ∖ {["invisible"]})) w, Ok tt).
Proof. intros H. unfold toggleSpinner, update_spinner. js_unfold. rewrite H. reflexivity. Qed.

Lemma toggleSpinner_none w :
  spinner w = None -> toggleSpinner w = (w, Throw (TypeError JSnull "classList")).
Proof. intros H. unfold toggleSpinner, update_spinner. js_unfold. rewrite H. reflexivity. Qed.

(** The guard of line 121, [if (this.predictionResult.length)]. *)
Definition purge (w : World) : World :=
  if decide (length (predictionResult (page w)) <> 0) then map_page (set_results []) w else w.

Lemma getPredictionResults_purge w :
  getPredictionResults w = (toggleSpinner ;; b ← sendDatas; subscribe b) (purge w).
Proof.
  unfold getPredictionResults, purge. js_unfold. simpl.
  destruct (decide _); reflexivity.
Qed.

Lemma purge_results w : predictionResult (page (purge w)) = [].
Proof.
  unfold purge. destruct (decide _) as [|Hn]; [reflexivity|].
  destruct (predictionResult (page w)); [reflexivity|]. simpl in Hn. lia.
Qed.

Lemma purge_spinner w : spinner (purge w) = spinner w.
Proof. unfold purge. destruct (decide _); reflexivity. Qed.

(** What a submission changes when the spinner element exists. *)
Lemma getPredictionResults_some w cl :
  spinner w = Some cl ->
  getPredictionResults w =
    (let w1 := set_spinner ({["visible"]} ∪ (cl ∖ {["invisible"]})) (purge w) in
     let dp := updateDatasPatient (dataPatient (page w1)) (covidForm (page w1)) in
     ({| page := set_patient dp (page w1); spinner := spinner w1;
         pending := pending w1 ++ [(next_request w1, createBodyPost dp)];
         next_request := S (next_request w1) |}, Ok tt)).
Proof.
  intros H. rewrite getPredictionResults_purge. js_unfold.
  rewrite (toggleSpinner_some _ cl) by (rewrite purge_spinner; exact H).
  reflexivity.
Qed.

Lemma getPredictionResults_none w :
  spinner w = None ->
  getPredictionResults w = (purge w, Throw (TypeError JSnull "classList")).
Proof.
  intros H. rewrite getPredictionResults_purge. js_unfold.
  rewrite toggleSpinner_none by (rewrite purge_spinner; exact H). reflexivity.
Qed.

(** After a submission, thrown or not, the result list is empty and the
    chart data untouched. *)
Lemma getPredictionResults_display w :
  predictionResult (page (getPredictionResults w).1) = [] /\
  chartsData (page (getPredictionResults w).1) = chartsData (page w).
Proof.
  destruct (spinner w) as [cl|] eqn:E.
  - rewrite (getPredictionResults_some w cl E). simpl.
    split; [apply purge_results|]. unfold purge. destruct (decide _); reflexivity.
  - rewrite (getPredictionResults_none w E). simpl.
    split; [apply purge_results|]. unfold purge. destruct (decide _); reflexivity.
Qed.

Lemma on_response_cases id v w :
  (exists d, Mapper.on_values v (display_of (page w)) = Ok d /\
             page (on_response id v w).1 = set_display d (page w)) \/
  page (on_response id v w).1 = page w.
Proof.
  unfold on_response. simpl.
  destruct (Mapper.on_values v _) as [d|e] eqn:E; [left; eauto | right; reflexivity].
Qed.

(** The page fields the result list and the chart depend on, after each
    event: a submission or a dismissal empties the list, a response runs
    the mapper, anything else leaves them. *)
Lemma handler_display ev w :
  let p' := page (handler ev w).1 in
  predictionResult p' = [] \/
  (predictionResult p' = predictionResult (page w) /\ chartsData p' = chartsData (page w)) \/
  (exists v, Mapper.on_values v (display_of (page w)) =
             Ok {| Mapper.predictionResult := predictionResult p';
                   Mapper.chartsData := chartsData p' |}).
Proof.
  destruct ev as [| | |f|id v|id]; simpl.
  - unfold ngOnInit. rewrite update_spinner_page. right; left; auto.
  - left. apply getPredictionResults_display.
  - left. reflexivity.
  - right; left; auto.
  - destruct (on_response_cases id v w) as [(d & Hd & ->) | ->].
    + right; right. exists v. rewrite Hd. destruct d; reflexivity.
    + right; left; auto.
  - right; left; auto.
Qed.

(** ** The result list as a function of the events *)

(** The list of the spec's data model (section 3): a successful response
    appends its entry, a submission or a dismissal clears the list, no
    other event touches it. *)
Definition results_after (ev : event) (l : list PredictionResult) : list PredictionResult :=
  match ev with
  | Submit | Close => []
  | Response _ v =>
      match Mapper.build_result v with Ok r => l ++ [r] | Throw _ => l end
  | Init | Edit _ | Failure _ => l
  end.

Lemma handler_results ev w :
  predictionResult (page (handler ev w).1) = results_after ev (predictionResult (page w)).
Proof.
  destruct ev as [| | |f|id v|id]; simpl.
  - unfold ngOnInit. rewrite update_spinner_page. reflexivity.
  - apply getPredictionResults_display.
  - reflexivity.
  - reflexivity.
  - unfold on_response. simpl. destruct (Mapper.build_result v) as [r|e] eqn:E.
    + rewrite (Mapper.on_values_push _ _ _ E). reflexivity.
    + rewrite (Mapper.on_values_throw _ _ _ E). reflexivity.
  - reflexivity.
Qed.

(** C28. Refinement of the spec's result list: after any sequence of
    events, whatever their order and whether handlers throw, the page's
    [predictionResult] is the list [results_after] describes: the entries
    of the successful responses since the last submission or dismissal,
    in arrival order. *)
Theorem run_results (evs : list event) (w : World) :
  predictionResult (page (run evs w)) =
    foldl (fun l ev => results_after ev l) (predictionResult (page w)) evs.
Proof.
  revert w. induction evs as [|ev evs IH]; intros w; simpl; [reflexivity|].
  rewrite IH, handler_results. reflexivity.
Qed.

(** ** Invariants of the page *)

(** The chart shows the first entry of the list, whenever there is one. *)
Definition chart_shows_first (p : HomePage) : Prop :=
  forall r rs, predictionResult p = r :: rs ->
               chartsData p = Mapper.charts_of (valeursPredictions r).

Lemma on_values_shape v st st' :
  Mapper.on_values v st = Ok st' ->
  exists r, Mapper.build_result v = Ok r /\
    Mapper.predictionResult st' = Mapper.predictionResult st ++ [r] /\
    Mapper.chartsData st' =
      Mapper.charts_of (valeursPredictions (default r (head (Mapper.predictionResult st)))).
Proof.
  intros H. destruct (Mapper.build_result v) as [r|e] eqn:E.
  - rewrite (Mapper.on_values_push _ _ _ E) in H. injection H as <-. eauto.
  - rewrite (Mapper.on_values_throw _ _ _ E) in H. discriminate.
Qed.

Lemma step_chart_shows_first w ev w' :
  step w ev w' -> chart_shows_first (page w) -> chart_shows_first (page w').
Proof.
  intros [w0 ev0 _] Hinv r rs Hl.
  destruct (handler_display ev0 w0) as [Hnil|[[Hr Hc]|[v Hv]]];
    [congruence | rewrite Hc; apply (Hinv r rs); congruence |].
  destruct (on_values_shape _ _ _ Hv) as (r0 & _ & Hres & Hch). simpl in *.
  rewrite Hch. destruct (predictionResult (page w0)) as [|r1 rs1]; simpl in *;
    rewrite Hl in Hres; injection Hres as -> _; reflexivity.
Qed.


Lemma initial_page_results now rnd : predictionResult (initial_page now rnd) = [].
Proof. reflexivity. Qed.

(** C4. In every reachable state, when the result list is not empty the chart
    shows its first entry (line 168 reads [predictionResult[0]]), not the
    latest one. *)
Theorem reachable_chart_shows_first w :
  reachable w -> chart_shows_first (page w).
Proof.
  induction 1 as [now rnd dom|w ev w' _ IH Hs].
  - intros r rs H. discriminate H.
  - exact (step_chart_shows_first _ _ _ Hs IH).
Qed.


(** Each event leaves the chart as it was or replaces it by the series of
    one entry. *)
Lemma handler_chart ev w :
  chartsData (page (handler ev w).1) = chartsData (page w) \/
  exists v, chartsData (page (handler ev w).1) = Mapper.charts_of v.
Proof.
  destruct ev as [| | |f|id v|id]; simpl; try (left; reflexivity).
  - left. unfold ngOnInit. rewrite update_spinner_page. reflexivity.
  - left. apply getPredictionResults_display.
  - destruct (on_response_cases id v w) as [(d & Hd & ->) | ->]; [right | left; reflexivity].
    destruct (on_values_shape _ _ _ Hd) as (r & _ & _ & Hc). simpl. rewrite Hc. eauto.
Qed.

(** C29. In every reachable state the chart the template draws is
    coherent: no series yet, or exactly one series per colour of
    [chartColors], each with one value per category of [chartLabels], the
    ambulatory series first. *)
Theorem reachable_chart_wf w : reachable w -> Chart.chart_wf (chartsData (page w)).
Proof.
  induction 1 as [now rnd dom|w ev w' _ IH Hs].
  - left. reflexivity.
  - inversion Hs; subst. destruct (handler_chart ev w) as [-> | [v ->]]; [exact IH|].
    right. split; [reflexivity|]. split; [repeat constructor | reflexivity].
Qed.

(** ** Sequences of events *)

(** Zero or more steps. *)
Inductive steps : World -> World -> Prop :=
  | steps_refl w : steps w w
  | steps_cons w ev w1 w2 : step w ev w1 -> steps w1 w2 -> steps w w2.

(** Each event of the list is enabled when its turn comes. *)
Fixpoint all_enabled (evs : list event) (w : World) : Prop :=
  match evs with
  | [] => True
  | ev :: evs' => enabled ev w /\ all_enabled evs' (handler ev w).1
  end.

Lemma run_steps evs w : all_enabled evs w -> steps w (run evs w).
Proof.
  revert w. induction evs as [|ev evs IH]; intros w H; simpl in *; [constructor|].
  destruct H as [Hen Hrest]. econstructor; [constructor; exact Hen | exact (IH _ Hrest)].
Qed.

Lemma run_app evs1 evs2 w : run (evs1 ++ evs2) w = run evs2 (run evs1 w).
Proof. revert w. induction evs1 as [|ev evs1 IH]; intros w; simpl; [reflexivity | apply IH]. Qed.

Lemma all_enabled_app evs1 evs2 w :
  all_enabled evs1 w -> all_enabled evs2 (run evs1 w) -> all_enabled (evs1 ++ evs2) w.
Proof.
  revert w. induction evs1 as [|ev evs1 IH]; intros w H1 H2; simpl in *; [exact H2|].
  destruct H1 as [Hen Hrest]. split; [exact Hen | exact (IH _ Hrest H2)].
Qed.

Lemma run_steps_app evs1 evs2 w :
  all_enabled evs1 w -> all_enabled evs2 (run evs1 w) -> steps w (run evs2 (run evs1 w)).
Proof. intros H1 H2. rewrite <- run_app. exact (run_steps _ _ (all_enabled_app _ _ _ H1 H2)). Qed.

(** A run of enabled events from a reachable state ends in a reachable
    state. *)
Lemma reachable_run evs w : reachable w -> all_enabled evs w -> reachable (run evs w).
Proof.
  revert w. induction evs as [|ev evs IH]; intros w Hr H; simpl in *; [exact Hr|].
  destruct H as [Hen Hrest]. apply IH; [|exact Hrest].
  eapply reachable_step; [exact Hr | constructor; exact Hen].
Qed.

(** ** The spinner *)

Definition spinner_shown (w : World) : Prop :=
  exists cl, spinner w = Some cl /\ "visible" ∈ cl.

Lemma getPredictionResults_spinner w cl :
  spinner w = Some cl ->
  spinner (getPredictionResults w).1 = Some ({["visible"]} ∪ (cl ∖ {["invisible"]})).
Proof. intros H. rewrite (getPredictionResults_some w cl H). reflexivity. Qed.

Lemma handler_spinner_shown ev w :
  spinner_shown w -> spinner_shown (handler ev w).1.
Proof.
  intros (cl & Hcl & Hv). destruct ev as [| | |f|id v|id]; unfold handler, spinner_shown; cbv iota.
  - unfold ngOnInit, update_spinner. rewrite Hcl. eexists; split; [reflexivity|set_solver].
  - rewrite (getPredictionResults_spinner w cl Hcl). eexists; split; [reflexivity|set_solver].
  - eexists; eauto.
  - eexists; eauto.
  - unfold on_response. destruct (Mapper.on_values _ _); simpl; eexists; eauto.
  - eexists; eauto.
Qed.


(** C9. Once a submission has shown the spinner, no sequence of events hides
    it again: neither a response (handled or failing), nor a dismissal,
    nor [ngOnInit]; no code of the page removes the class [visible]. *)
Theorem spinner_never_hidden w cl w1 w' :
  spinner w = Some cl -> step w Submit w1 -> steps w1 w' -> spinner_shown w'.
Proof.
  intros Hcl Hs Hsteps. inversion Hs; subst.
  assert (Hw1 : spinner_shown (handler Submit w).1).
  { change (spinner_shown (getPredictionResults w).1).
    unfold spinner_shown. rewrite (getPredictionResults_spinner w cl Hcl).
    eexists; split; [reflexivity|set_solver]. }
  clear Hs. induction Hsteps as [w2|w2 ev w3 w4 Hst _ IH]; [exact Hw1|].
  apply IH. inversion Hst; subst. apply handler_spinner_shown, Hw1.
Qed.

(** ** Submission *)

Lemma purge_pending w : pending (purge w) = pending w /\ next_request (purge w) = next_request w.
Proof. unfold purge. destruct (decide _); split; reflexivity. Qed.

Lemma purge_page w : page (purge w) = set_results [] (page w) \/
                     (page (purge w) = page w /\ predictionResult (page w) = []).
Proof.
  unfold purge. destruct (decide _) as [|Hn]; [left; reflexivity|right; split; [reflexivity|]].
  destruct (predictionResult (page w)); [reflexivity|]. simpl in Hn. lia.
Qed.

(** The effect of a submission when the spinner element exists. *)
Lemma submit_effect w cl :
  spinner w = Some cl ->
  let (w', res) := getPredictionResults w in
  let dp := updateDatasPatient (dataPatient (page w)) (covidForm (page w)) in
  res = Ok tt /\
  predictionResult (page w') = [] /\ chartsData (page w') = chartsData (page w) /\
  dataPatient (page w') = dp /\
  spinner w' = Some ({["visible"]} ∪ (cl ∖ {["invisible"]})) /\
  pending w' = pending w ++ [(next_request w, createBodyPost dp)] /\
  next_request w' = S (next_request w).
Proof.
  intros Hcl. rewrite (getPredictionResults_some w cl Hcl). cbn zeta.
  destruct (purge_pending w) as [Hp Hn].
  pose proof (purge_results w) as Hr.
  assert (Hsame : dataPatient (page (purge w)) = dataPatient (page w) /\
                  covidForm (page (purge w)) = covidForm (page w) /\
                  chartsData (page (purge w)) = chartsData (page w)).
  { destruct (purge_page w) as [->|[-> _]]; auto. }
  destruct Hsame as (Hd & Hf & Hc). simpl. rewrite Hd, Hf, Hp, Hn, Hr, Hc.
  repeat split.
Qed.

(** C8. A submission when the spinner element exists: the old results are
    purged, the spinner is shown ([invisible] removed, [visible] added),
    [dataPatient] becomes [updateDatasPatient(dataPatient, form)] and one
    request leaves with [createBodyPost] of it; the chart data stays. *)
Theorem getPredictionResults_spec w cl :
  spinner w = Some cl ->
  let (w', res) := getPredictionResults w in
  let dp := updateDatasPatient (dataPatient (page w)) (covidForm (page w)) in
  res = Ok tt /\
  predictionResult (page w') = [] /\ chartsData (page w') = chartsData (page w) /\
  dataPatient (page w') = dp /\
  spinner w' = Some ({["visible"]} ∪ (cl ∖ {["invisible"]})) /\
  pending w' = pending w ++ [(next_request w, createBodyPost dp)] /\
  next_request w' = S (next_request w).
Proof. exact (submit_effect w cl). Qed.

(** C17. Without the spinner element, [toggleSpinner] throws a [TypeError]
    after the old results were purged: the list is empty, no request is
    sent, and the page is left waiting for nothing. *)
Theorem getPredictionResults_no_spinner w :
  spinner w = None ->
  (getPredictionResults w).2 = Throw (TypeError JSnull "classList") /\
  predictionResult (page (getPredictionResults w).1) = [] /\
  pending (getPredictionResults w).1 = pending w.
Proof.
  intros H. rewrite (getPredictionResults_none w H). simpl.
  split; [reflexivity|]. split; [apply purge_results | apply purge_pending].
Qed.

(** C18. The guard of line 121 changes nothing: purging only when the list is
    not empty has the same effect as dismissing unconditionally. *)
Theorem getPredictionResults_unguarded w :
  getPredictionResults w = (closeMessage ;; toggleSpinner ;; b ← sendDatas; subscribe b) w.
Proof.
  rewrite getPredictionResults_purge. js_unfold. unfold closeMessage. js_unfold.
  f_equal. unfold purge. destruct (decide _) as [|Hn]; [reflexivity|].
  destruct w as [p sp pd nx]. destruct p; simpl in *.
  destruct predictionResult0; [reflexivity|]. simpl in Hn. lia.
Qed.

(** C19. [closeMessage] empties the list and calling it a second time changes
    nothing; it does not touch the chart data, which keeps showing the
    dismissed result.  As events: a second click on the close button right
    after the first can be dropped from any run. *)
Theorem closeMessage_idempotent w :
  predictionResult (page (closeMessage w).1) = [] /\
  chartsData (page (closeMessage w).1) = chartsData (page w) /\
  closeMessage (closeMessage w).1 = closeMessage w /\
  forall pre post, run (pre ++ Close :: Close :: post) w = run (pre ++ Close :: post) w.
Proof. repeat split. intros pre post. rewrite !run_app. reflexivity. Qed.

(** ** Requests in flight *)

(** The requests in flight carry distinct identifiers, all below the next
    one to be issued: a response or failure event names one request. *)
Definition requests_wf (w : World) : Prop :=
  Forall (fun q => q.1 < next_request w) (pending w) /\ NoDup (pending w).*1.

(** Each event either removes requests and issues none, or issues exactly
    one request with the next identifier. *)
Lemma handler_requests ev w :
  let w' := (handler ev w).1 in
  (pending w' `sublist_of` pending w /\ next_request w' = next_request w) \/
  (exists b, pending w' = pending w ++ [(next_request w, b)] /\
             next_request w' = S (next_request w)).
Proof.
  destruct ev as [| | |f|id v|id]; cbn zeta; simpl.
  - left. unfold ngOnInit, update_spinner. destruct (spinner w); split; reflexivity.
  - destruct (spinner w) as [cl|] eqn:E.
    + right. rewrite (getPredictionResults_some w cl E). simpl.
      destruct (purge_pending w) as [-> ->]. eexists; split; reflexivity.
    + left. rewrite (getPredictionResults_none w E). simpl.
      destruct (purge_pending w) as [-> ->]. split; reflexivity.
  - left; split; reflexivity.
  - left; split; reflexivity.
  - left. unfold on_response. destruct (Mapper.on_values _ _); simpl;
      (split; [apply sublist_filter | reflexivity]).
  - left. split; [apply sublist_filter | reflexivity].
Qed.

Lemma requests_wf_sublist w w' :
  pending w' `sublist_of` pending w -> next_request w' = next_request w ->
  requests_wf w -> requests_wf w'.
Proof.
  intros Hs Hn [Hlt Hnd]. split.
  - rewrite Hn. exact (Forall_sublist _ _ _ Hs Hlt).
  - exact (sublist_NoDup _ _ Hnd (fmap_sublist _ _ _ Hs)).
Qed.

Lemma requests_wf_issue w w' b :
  pending w' = pending w ++ [(next_request w, b)] -> next_request w' = S (next_request w) ->
  requests_wf w -> requests_wf w'.
Proof.
  intros Hp Hn [Hlt Hnd]. unfold requests_wf. rewrite Hp, Hn. split.
  - apply Forall_app. split; [eapply Forall_impl; [exact Hlt | simpl; lia] | repeat constructor].
  - rewrite fmap_app. apply NoDup_app. split; [exact Hnd|]. split; [|apply NoDup_singleton].
    intros x Hx Hx'. simpl in Hx'. apply list_elem_of_singleton in Hx'. subst x.
    apply list_elem_of_fmap in Hx as ([i c] & Hi & Hq). simpl in Hi. subst i.
    rewrite Forall_forall in Hlt. specialize (Hlt _ Hq). simpl in Hlt. lia.
Qed.

Lemma requests_wf_reachable w : reachable w -> requests_wf w.
Proof.
  induction 1 as [now rnd dom|w ev w' _ IH Hst].
  - split; constructor.
  - inversion Hst; subst. destruct (handler_requests ev w) as [[Hs Hn]|(b & Hp & Hn)].
    + exact (requests_wf_sublist _ _ Hs Hn IH).
    + exact (requests_wf_issue _ _ b Hp Hn IH).
Qed.


(** ** Progress: every request in flight can complete *)

(** What the service eventually does with request [id]: answer it with an
    envelope, or fail. *)
Definition reply (ans : nat -> option FHIRData) (id : nat) : event :=
  match ans id with Some v => Response id v | None => Failure id end.

Lemma handler_reply_pending ans id w :
  pending (handler (reply ans id) w).1 = filter (fun q => q.1 <> id) (pending w).
Proof.
  unfold reply. destruct (ans id) as [v|]; simpl; [|reflexivity].
  unfold on_response. destruct (Mapper.on_values _ _); reflexivity.
Qed.

Lemma filter_other_ids (L : list (nat * list body)) (i : nat) :
  i ∉ L.*1 -> filter (fun q => q.1 <> i) L = L.
Proof.
  induction L as [|q L IH]; intros Hi; [reflexivity|].
  rewrite filter_cons, decide_True by (intros Heq; apply Hi; rewrite <- Heq; left).
  f_equal. apply IH. intros H. apply Hi. right. exact H.
Qed.

(** Answering the requests of [L], in the order they were sent, is a run
    in which each answer is enabled, and it leaves none in flight. *)
Lemma drain_requests ans (L : list (nat * list body)) w :
  pending w = L -> NoDup L.*1 ->
  all_enabled (map (fun q => reply ans q.1) L) w /\
  pending (run (map (fun q => reply ans q.1) L) w) = [].
Proof.
  revert w. induction L as [|q L IH]; intros w Hp Hnd; simpl; [split; [exact I | exact Hp]|].
  apply NoDup_cons in Hnd as [Hq Hnd].
  assert (Hen : enabled (reply ans q.1) w)
    by (unfold reply; destruct (ans q.1); simpl; rewrite Hp; left).
  assert (Hrest : pending (handler (reply ans q.1) w).1 = L).
  { rewrite handler_reply_pending, Hp, filter_cons, decide_False by (intros H; apply H; reflexivity).
    apply filter_other_ids, Hq. }
  destruct (IH _ Hrest Hnd) as [Hall Hend]. split; [split; assumption | exact Hend].
Qed.

(** C30. Liveness: from every reachable state, whatever the service answers
    to each request in flight (an envelope or a failure), delivering the
    answers in the order the requests were sent is a run of the page, and
    it ends with no request in flight. *)
Theorem pending_requests_complete (w : World) (ans : nat -> option FHIRData) :
  reachable w ->
  let evs := map (fun q => reply ans q.1) (pending w) in
  steps w (run evs w) /\ pending (run evs w) = [].
Proof.
  intros Hr. cbn zeta. destruct (requests_wf_reachable w Hr) as [_ Hnd].
  destruct (drain_requests ans (pending w) w eq_refl Hnd) as [Hall Hend].
  split; [apply run_steps, Hall | exact Hend].
Qed.

(** ** Termination of the service side *)

(** The events the network produces: a response or a failure. *)
Definition service_event (ev : event) : bool :=
  match ev with Response _ _ | Failure _ => true | _ => false end.

Definition service_step (w w' : World) : Prop :=
  exists ev, service_event ev = true /\ step w ev w'.

(** Completing an enabled request removes at least that request. *)
Lemma filter_pending_lt (L : list (nat * list body)) (id : nat) :
  id ∈ L.*1 -> length (filter (fun q => q.1 <> id) L) < length L.
Proof.
  intros Hid. apply list_elem_of_fmap in Hid as (q & -> & Hq).
  apply (length_filter_lt _ _ q Hq). intros H. apply H. reflexivity.
Qed.

Lemma service_step_pending w w' :
  service_step w w' -> length (pending w') < length (pending w).
Proof.
  intros (ev & Hs & Hst). inversion Hst as [w0 ev0 Hen]; subst.
  destruct ev as [| | |f|id v|id]; try discriminate; simpl in *.
  - unfold on_response. destruct (Mapper.on_values _ _); apply filter_pending_lt, Hen.
  - apply filter_pending_lt, Hen.
Qed.

(** C32. Termination: without user input the network can deliver only
    finitely many events.  Service steps (responses and failures of
    requests in flight) are well founded: each completes the request it
    answers, so no infinite sequence of them exists from any state. *)
Theorem service_steps_terminate : well_founded (fun w' w => service_step w w').
Proof.
  apply (wf_incl _ _ (ltof _ (fun w => length (pending w)))).
  - intros w' w H. exact (service_step_pending w w' H).
  - apply well_founded_ltof.
Qed.


(** C26. For every value [Math.random()] can return, a number of [0, 1),
    the identifier [Math.floor(Math.random() * 10000)] of line 51 is a
    finite integral number between 0 and 9999: the rounded product never
    reaches 10000. *)
Theorem initial_idPatient_range (now : DateModel.Date) (rnd : Number.t) :
  Number.valid rnd = true -> Number.is_finite rnd = true -> (0 <= Number.fval rnd < 1)%Q ->
  Number.is_finite (Patient.idPatient (dataPatient (initial_page now rnd))) = true /\
  exists n, (0 <= n <= 9999)%Z /\
            Number.fval (Patient.idPatient (dataPatient (initial_page now rnd))) == inject_Z n.
Proof.
  intros Hv Hf Hb. simpl.
  destruct (Rounding.math_floor_range _ 10000 (Rounding.mul_random rnd Hv Hf Hb) ltac:(lia))
    as [Hfin (n & Hn & Hval)].
  split; [exact Hfin|]. exists n. split; [lia | exact Hval].
Qed.

(** ** Interleavings *)

Lemma on_response_ok id v w r :
  Mapper.build_result v = Ok r ->
  predictionResult (page (on_response id v w).1) = predictionResult (page w) ++ [r] /\
  chartsData (page (on_response id v w).1) =
    Mapper.charts_of (valeursPredictions (default r (head (predictionResult (page w))))) /\
  pending (on_response id v w).1 = filter (fun q => q.1 <> id) (pending w) /\
  spinner (on_response id v w).1 = spinner w.
Proof.
  intros H. unfold on_response. simpl.
  rewrite (Mapper.on_values_push _ _ _ H). repeat split.
Qed.

Lemma pending_ids_filter (L : list (nat * list body)) i j b :
  (j, b) ∈ L -> j <> i -> j ∈ (filter (fun q => q.1 <> i) L).*1.
Proof.
  intros Hin Hne. apply list_elem_of_fmap. exists (j, b). split; [reflexivity|].
  apply list_elem_of_filter. split; [exact Hne | exact Hin].
Qed.

(** Two submissions in a row, when the spinner element exists: both are
    enabled, the list is empty and two requests with consecutive
    identifiers are in flight. *)
Lemma two_submits w cl :
  spinner w = Some cl ->
  exists b1 b2,
    all_enabled [Submit; Submit] w /\
    predictionResult (page (run [Submit; Submit] w)) = [] /\
    pending (run [Submit; Submit] w) =
      pending w ++ [(next_request w, b1); (S (next_request w), b2)].
Proof.
  intros Hcl. cbn [run handler].
  pose proof (submit_effect w cl Hcl) as S1.
  destruct (getPredictionResults w) as [w1 res1]. cbn [fst].
  destruct S1 as (_ & _ & _ & _ & Sp1 & P1 & N1).
  pose proof (submit_effect w1 _ Sp1) as S2.
  destruct (getPredictionResults w1) as [w2 res2]. cbn [fst].
  destruct S2 as (_ & R2 & _ & _ & _ & P2 & _).
  do 2 eexists. split; [repeat split|]. split; [exact R2|].
  simpl. rewrite P2, P1, N1, <- app_assoc. reflexivity.
Qed.

(** C5. Two submissions in a row, then both responses, in either order: both
    entries are in the list, in the order the responses arrived, and the
    chart shows the response that arrived first, whichever submission it
    answers; the later submission's answer is never charted. *)
Theorem responses_in_arrival_order w cl i j v u r q :
  spinner w = Some cl ->
  (i, j) = (next_request w, S (next_request w)) \/ (i, j) = (S (next_request w), next_request w) ->
  Mapper.build_result v = Ok r -> Mapper.build_result u = Ok q ->
  let w' := run [Submit; Submit; Response i v; Response j u] w in
  steps w w' /\
  predictionResult (page w') = [r; q] /\
  chartsData (page w') = Mapper.charts_of (valeursPredictions r).
Proof.
  intros Hcl Hij Hv Hu. cbn zeta.
  destruct (two_submits w cl Hcl) as (b1 & b2 & E2 & R2 & P2).
  change [Submit; Submit; Response i v; Response j u]
    with ([Submit; Submit] ++ [Response i v; Response j u]).
  rewrite run_app. set (w2 := run [Submit; Submit] w) in *.
  destruct (on_response_ok i v w2 r Hv) as (R3 & C3 & P3 & _).
  destruct (on_response_ok j u (on_response i v w2).1 q Hu) as (R4 & C4 & _ & _).
  assert (M1 : (next_request w, b1) ∈ pending w2) by (rewrite P2; set_solver).
  assert (M2 : (S (next_request w), b2) ∈ pending w2) by (rewrite P2; set_solver).
  split; [|split].
  - apply run_steps_app; [exact E2|]. fold w2.
    cbn [all_enabled enabled handler]. rewrite P3.
    destruct Hij as [[= -> ->]|[= -> ->]]; (split; [|split; [|exact I]]).
    + exact (list_elem_of_fmap_2 fst _ _ M1).
    + eapply pending_ids_filter; [exact M2 | lia].
    + exact (list_elem_of_fmap_2 fst _ _ M2).
    + eapply pending_ids_filter; [exact M1 | lia].
  - cbn [run handler]. rewrite R4, R3, R2. reflexivity.
  - cbn [run handler]. rewrite C4, R3, R2. reflexivity.
Qed.

(** C10. A response is never cancelled: after two submissions, the answer to
    the second, and a dismissal, the late answer to the first submission
    still arrives and repopulates the dismissed list, and the chart. *)
Theorem late_response_after_close w cl v1 v2 r1 r2 :
  spinner w = Some cl ->
  Mapper.build_result v1 = Ok r1 -> Mapper.build_result v2 = Ok r2 ->
  let n := next_request w in
  let w' := run [Submit; Submit; Response (S n) v2; Close; Response n v1] w in
  steps w w' /\
  predictionResult (page w') = [r1] /\
  chartsData (page w') = Mapper.charts_of (valeursPredictions r1).
Proof.
  intros Hcl Hv1 Hv2. cbn zeta.
  destruct (two_submits w cl Hcl) as (b1 & b2 & E2 & R2 & P2).
  change [Submit; Submit; Response (S (next_request w)) v2; Close; Response (next_request w) v1]
    with ([Submit; Submit] ++ [Response (S (next_request w)) v2; Close; Response (next_request w) v1]).
  rewrite run_app. set (w2 := run [Submit; Submit] w) in *.
  destruct (on_response_ok (S (next_request w)) v2 w2 r2 Hv2) as (_ & _ & P3 & _).
  set (w4 := (closeMessage (on_response (S (next_request w)) v2 w2).1).1).
  destruct (on_response_ok (next_request w) v1 w4 r1 Hv1) as (R5 & C5 & _ & _).
  assert (M1 : (next_request w, b1) ∈ pending w2) by (rewrite P2; set_solver).
  assert (M2 : (S (next_request w), b2) ∈ pending w2) by (rewrite P2; set_solver).
  split; [|split].
  - apply run_steps_app; [exact E2|]. fold w2.
    cbn [all_enabled enabled handler]. fold w4.
    split; [exact (list_elem_of_fmap_2 fst _ _ M2)|]. split; [exact I|].
    split; [|exact I]. unfold w4. simpl. rewrite P3.
    eapply pending_ids_filter; [exact M1 | lia].
  - cbn [run handler]. fold w4. rewrite R5. reflexivity.
  - cbn [run handler]. fold w4. rewrite C5. reflexivity.
Qed.

End Page.

(** ** Witnesses

    A service that posts the patient record as it is, and the page as it
    is built on 9 November 2026 with [Math.random()] returning 0.5, in a
    document whose spinner element has no class yet. *)
#[local] Instance echo_service : PatientService :=
  {| body := Patient.DataPatient;
     updateDatasPatient := fun dp _ => dp;
     createBodyPost := fun dp => [dp] |}.

Definition demo_world : World :=
  initial_world DateModel.nov9_2026 (JSString.to_number (JSString.u "0.5")) (Some ∅).

Definition demo_world_no_spinner : World :=
  initial_world DateModel.nov9_2026 (JSString.to_number (JSString.u "0.5")) None.

Lemma reachable_chart_shows_first_witness :
  chart_shows_first (page (run [Submit; Response 0 (Mapper.encode Mapper.example_assessment)]
                               demo_world)).
Proof.
  apply reachable_chart_shows_first, reachable_run; [apply reachable_init|].
  split; [exact I | split; [vm_compute; left; reflexivity | exact I]].
Defined.


Lemma spinner_never_hidden_witness :
  spinner_shown (handler Submit demo_world).1.
Proof.
  apply (spinner_never_hidden demo_world ∅ (handler Submit demo_world).1); [reflexivity| |].
  - constructor. exact I.
  - apply steps_refl.
Defined.


Lemma initial_idPatient_range_witness :
  Number.is_finite (Patient.idPatient (dataPatient (page demo_world))) = true /\
  exists n, (0 <= n <= 9999)%Z /\
            Number.fval (Patient.idPatient (dataPatient (page demo_world))) == inject_Z n.
Proof.
  apply (initial_idPatient_range DateModel.nov9_2026 (JSString.to_number (JSString.u "0.5")));
    [vm_compute; reflexivity | vm_compute; reflexivity |].
  split; [apply Qle_bool_imp_le; vm_compute; reflexivity | unfold Qlt; vm_compute; reflexivity].
Defined.

Lemma reachable_chart_wf_witness :
  Chart.chart_wf (chartsData (page (run [Submit; Response 0 (Mapper.encode Mapper.example_assessment)]
                                         demo_world))).
Proof.
  apply reachable_chart_wf.
  apply reachable_run; [apply reachable_init|].
  split; [exact I | split; [vm_compute; left; reflexivity | exact I]].
Defined.

Lemma pending_requests_complete_witness :
  pending (run (map (fun q => reply (fun _ => None) q.1)
                    (pending (run [Submit; Submit] demo_world)))
               (run [Submit; Submit] demo_world)) = [].
Proof.
  apply (pending_requests_complete (run [Submit; Submit] demo_world) (fun _ => None)).
  apply (reachable_run [Submit; Submit]); [apply reachable_init | repeat split].
Defined.


Lemma getPredictionResults_spec_witness :
  (getPredictionResults demo_world).2 = Ok tt.
Proof.
  pose proof (getPredictionResults_spec demo_world ∅ eq_refl) as H.
  destruct (getPredictionResults demo_world) as [w' res]. destruct H as [-> _]. reflexivity.
Defined.

Lemma getPredictionResults_no_spinner_witness :
  (getPredictionResults demo_world_no_spinner).2 = Throw (TypeError JSnull "classList").
Proof. apply (getPredictionResults_no_spinner demo_world_no_spinner eq_refl). Defined.

Lemma responses_in_arrival_order_witness :
  exists r q,
    predictionResult (page (run [Submit; Submit; Response 1 (Mapper.encode Mapper.example_assessment);
                                 Response 0 (Mapper.encode Mapper.example_assessment)]
                                demo_world)) = [r; q].
Proof.
  do 2 eexists.
  refine (proj1 (proj2 (responses_in_arrival_order demo_world ∅ 1 0 _ _ _ _ eq_refl _ _ _))).
  - right. reflexivity.
  - reflexivity.
  - reflexivity.
Defined.

Lemma late_response_after_close_witness :
  exists r,
    predictionResult (page (run [Submit; Submit; Response 1 (Mapper.encode Mapper.example_assessment);
                                 Close; Response 0 (Mapper.encode Mapper.example_assessment)]
                                demo_world)) = [r].
Proof.
  eexists.
  refine (proj1 (proj2 (late_response_after_close demo_world ∅ _ _ _ _ eq_refl _ _))).
  - reflexivity.
  - reflexivity.
Defined.

End HomePage.
